(** * Baby-name trend analysis ([util.py]): model and verified properties

    The module under study is a pipeline of pandas queries over one combined
    table of Social Security name registrations.  This development has three
    parts:

    - a value-level model: a data frame is the list of its rows, a Python
      [set] is a duplicate-free list, a [dict] is an insertion-ordered
      association list, and every function of [util.py] is a function on
      these values;
    - an object-level model: data frames live in a store, every pandas
      operation of the source allocates or updates an object there, and the
      functions of [util.py] are programs in a state-and-exception monad;
    - the properties: what each function computes, that the object-level
      programs return the value-level results, never raise, and leave the
      caller's frame as it was.

    Numbers are as pandas has them: the [count] column is int64, so the
    sums of counts wrap around modulo [2^64]; percentages are binary64
    values, each operation rounded to nearest, ties to even, with the IEEE
    values that a division by zero yields in NumPy.  A binary64 value is
    represented by the rational it denotes.  Python integers (years,
    tallies) are unbounded.  The iteration order of a Python [set] is
    fixed to one enumeration, and results that are sets are described by
    their members; where the sort of pandas is free to order equal
    percentages, the properties are stated for every such order. *)

From Stdlib Require Import List ZArith QArith String Bool Lia Permutation Sorted.
Import ListNotations.
Local Open Scope Z_scope.

Set Implicit Arguments.

(** ** Data model *)

(** One registration row: the columns [name], [gender], [count], [year] and
    [state] of the combined frame.  [count] holds an int64 value. *)
Record Row : Type := mkRow {
  r_name   : string;
  r_gender : string;
  r_count  : Z;
  r_year   : Z;
  r_state  : string
}.

Definition DataFrame : Type := list Row.

(** ** Python values *)

Module Py.

(** [range(lo, hi)]. *)
Definition range (lo hi : Z) : list Z :=
  map (fun i => lo + Z.of_nat i) (seq 0 (Z.to_nat (hi - lo))).

(** [x in l] for a list or set of strings. *)
Definition mem (x : string) (l : list string) : bool :=
  existsb (String.eqb x) l.

(** A [set] of strings, as the list of its elements without repetition. *)
Definition pyset : Type := list string.

(** [set(l)]. *)
Definition set (l : list string) : pyset := nodup string_dec l.

(** [a.intersection(b)]. *)
Definition intersection (a b : pyset) : pyset :=
  filter (fun x => mem x b) a.

(** A [dict] with string keys: the items in insertion order. *)
Definition dict (V : Type) : Type := list (string * V).

Definition keys {V} (d : dict V) : list string := map fst d.

Fixpoint get {V} (d : dict V) (k : string) : option V :=
  match d with
  | [] => None
  | (k', v) :: d' => if String.eqb k k' then Some v else get d' k
  end.

(** [d[k] = v]: overwrites the entry of [k], or adds it at the end. *)
Fixpoint setitem {V} (d : dict V) (k : string) (v : V) : dict V :=
  match d with
  | [] => [(k, v)]
  | (k', v') :: d' =>
      if String.eqb k k' then (k', v) :: d' else (k', v') :: setitem d' k v
  end.

(** In-place update of the value stored under an existing key, as in
    [d[k].append(y)] and [d[k] += 1]. *)
Fixpoint adjust {V} (f : V -> V) (d : dict V) (k : string) : dict V :=
  match d with
  | [] => []
  | (k', v') :: d' =>
      if String.eqb k k' then (k', f v') :: d' else (k', v') :: adjust f d' k
  end.

(** [min(l)]; [None] stands for the [ValueError] raised on an empty list. *)
Definition min (l : list Z) : option Z :=
  match l with
  | [] => None
  | x :: l' => Some (fold_left Z.min l' x)
  end.

End Py.

(** ** Extended values of a float division *)

(** A binary64 value: a finite number, given by the rational it denotes,
    or one of the special values. *)
Inductive xreal : Type :=
| NaN
| NegInf
| Fin (q : Q)
| PosInf.

(** ** Machine arithmetic of NumPy *)

Module Np.

(** The int64 value of an integer result: its residue modulo [2^64] in
    [[-2^63, 2^63)]. *)
Definition wrap64 (z : Z) : Z := (z + 2 ^ 63) mod 2 ^ 64 - 2 ^ 63.

(** [x * 2^e] for a non-negative [e], and [x] otherwise. *)
Definition shl (x e : Z) : Z := x * 2 ^ Z.max e 0.

(** The binary exponent of the positive rational [n / d]: the [e] with
    [2^e <= n / d < 2^(e+1)]. *)
Definition exponent (n d : Z) : Z :=
  let e := Z.log2 n - Z.log2 d in
  if shl d e <=? shl n (- e) then e else e - 1.

(** The positive rational [n / d] rounded to the nearest multiple of
    [2^(-s)], a tie going to the even multiple. *)
Definition round_at (n d s : Z) : Q :=
  let num := shl n s in
  let den := shl d (- s) in
  let m := num / den in
  let r := num mod den in
  let m' :=
    if 2 * r <? den then m
    else if den <? 2 * r then m + 1
    else if Z.even m then m else m + 1 in
  Qmake (shl m' (- s)) (Z.to_pos (shl 1 s)).

(** Rounding to 53 significant bits, and to multiples of [2^(-1074)] in
    the subnormal range. *)
Definition round_pos (n d : Z) : Q :=
  round_at n d (Z.min (52 - exponent n d) 1074).

(** Rounding of a rational to binary64, the exponent unbounded above. *)
Definition rnd (q : Q) : Q :=
  match Qnum q with
  | Z0 => 0%Q
  | Zpos n => round_pos (Zpos n) (Zpos (Qden q))
  | Zneg n => (- round_pos (Zpos n) (Zpos (Qden q)))%Q
  end.

(** The binary64 result of an operation whose exact value is [q]. *)
Definition fl64 (q : Q) : xreal :=
  let r := rnd q in
  if Qle_bool (inject_Z (2 ^ 1024)) r then PosInf
  else if Qle_bool r (inject_Z (- 2 ^ 1024)) then NegInf
  else Fin r.

(** The conversion of an int64 to binary64; it cannot overflow. *)
Definition float_of_int (z : Z) : Q := rnd (inject_Z z).

End Np.

(** [count / total] for int64 operands: both are converted to binary64 and
    divided there; a zero [total] yields a special value and no
    exception. *)
Definition truediv (c total : Z) : xreal :=
  if total =? 0 then
    if c =? 0 then NaN else if 0 <? c then PosInf else NegInf
  else Np.fl64 (Np.float_of_int c / Np.float_of_int total)%Q.

(** Multiplication by a positive binary64 constant. *)
Definition xscale (x : xreal) (k : Q) : xreal :=
  match x with
  | Fin q => Np.fl64 (q * k)%Q
  | _ => x
  end.

(** The order a descending [sort_values] realises: [NaN] sorts after every
    other value ([na_position='last']), hence is least here. *)
Definition xleb (a b : xreal) : bool :=
  match a, b with
  | NaN, _ => true
  | _, NaN => false
  | NegInf, _ => true
  | _, NegInf => false
  | _, PosInf => true
  | PosInf, _ => false
  | Fin p, Fin q => Qle_bool p q
  end.

(** ** pandas operations on values *)

Module Pd.

(** Stable insertion sort; [before x y] says that [x] may stay in front of
    [y]. *)
Section Sort.
Variable A : Type.
Variable before : A -> A -> bool.

Fixpoint insert (x : A) (l : list A) : list A :=
  match l with
  | [] => [x]
  | y :: l' => if before x y then x :: l else y :: insert x l'
  end.

Definition sort (l : list A) : list A := fold_right insert [] l.
End Sort.

(** The sum of a list of integers. *)
Definition sum (l : list Z) : Z := fold_right Z.add 0 l.

(** [s.sum()] of an int64 column: the sum in int64. *)
Definition sum64 (l : list Z) : Z := Np.wrap64 (sum l).

(** Sum of the [count] entries filed under [name]. *)
Definition group_sum (rows : list (string * Z)) (name : string) : Z :=
  sum64 (map snd (filter (fun r => String.eqb (fst r) name) rows)).

(** [frame.groupby(['name']).sum()]: one row per distinct name, the group
    keys in sorted order, the counts of each group added up. *)
Definition groupby_sum (rows : list (string * Z)) : list (string * Z) :=
  map (fun name => (name, group_sum rows name))
      (sort String.leb (Py.set (map fst rows))).

(** [(frame['count'] / total) * 100]. *)
Definition percentage (counts : list Z) (total : Z) : list xreal :=
  map (fun c => xscale (truediv c total) 100) counts.

(** [frame['percentage'] = column]. *)
Definition assign (rows : list (string * Z)) (column : list xreal)
  : list (string * Z * xreal) :=
  combine rows column.

(** [frame.sort_values(by='percentage', ascending=False)].  Equal
    percentages keep their relative order, which is one of the orders the
    default sort of NumPy may produce. *)
Definition sort_values (rows : list (string * Z * xreal))
  : list (string * Z * xreal) :=
  sort (fun x y => xleb (snd y) (snd x)) rows.

(** [frame.index]. *)
Definition index (rows : list (string * Z * xreal)) : list string :=
  map (fun r => fst (fst r)) rows.

(** [math.ceil(n * .1)].  The product is a float; for every length below
    [2^50] its ceiling is the integer ceiling of [n / 10]. *)
Definition ceil_tenth (n : nat) : nat := ((n + 9) / 10)%nat.

End Pd.

(** ** The functions of [util.py] on values *)

Definition new_names (df : DataFrame) (year : Z) : Py.pyset :=
  let previous :=
    filter (fun r => (year - 11 <=? r_year r) && (r_year r <=? year - 1)) df in
  let previous_names := Py.set (map r_name previous) in
  let current_names :=
    Py.set (map r_name (filter (fun r => r_year r =? year) df)) in
  let new_names :=
    filter (fun name => negb (Py.mem name previous_names)) current_names in
  Py.set new_names.

Definition states_with_name (df : DataFrame) (year : Z) (name : string)
  : Py.pyset :=
  Py.set (map r_state
            (filter (fun r => (r_year r =? year) && String.eqb (r_name r) name)
                    df)).

Definition popular_names (df : DataFrame) (year : Z) : Py.pyset :=
  let current := filter (fun r => r_year r =? year) df in
  let current :=
    Pd.groupby_sum (map (fun r => (r_name r, r_count r)) current) in
  let total := Pd.sum64 (map snd current) in
  let current := Pd.assign current (Pd.percentage (map snd current) total) in
  let top := Pd.ceil_tenth (List.length current) in
  let current := firstn top (Pd.sort_values current) in
  Py.set (Pd.index current).

(** One pass of the inner loop of [becomed_popular]. *)
Definition note_year (y : Z) (becomed : Py.dict (list Z)) (name : string)
  : Py.dict (list Z) :=
  if negb (Py.mem name (Py.keys becomed))
  then Py.setitem becomed name [y]
  else Py.adjust (fun years => years ++ [y]) becomed name.

Definition becomed_popular (df : DataFrame) (year : Z) : Py.dict (list Z) :=
  let new := new_names df year in
  fold_left
    (fun becomed y =>
       let inter := Py.intersection new (popular_names df y) in
       fold_left (note_year y) inter becomed)
    (Py.range year (year + 10)) [].

Definition trend_setter (df : DataFrame) (year : Z) : list string :=
  let names := becomed_popular df year in
  fold_left
    (fun states name => states ++ states_with_name df year name)
    (Py.keys names) [].

(** One pass of the counting loop shared by the two period functions. *)
Definition tally (states : Py.dict Z) (s : string) : Py.dict Z :=
  if negb (Py.mem s (Py.keys states))
  then Py.setitem states s 1
  else Py.adjust (fun n => n + 1) states s.

Definition trend_setter_period (df : DataFrame) (start end_ : Z)
  : Py.dict Z :=
  fold_left
    (fun states year =>
       let states_year := trend_setter df year in
       if (0 <? List.length states_year)%nat
       then fold_left tally states_year states
       else states)
    (Py.range start (end_ + 1)) [].

(** The dictionary comprehension of [late_adopters]:
    [{name: min(years)+1 for name, years in names.items()}]. *)
Fixpoint first_popular (names : Py.dict (list Z)) : option (Py.dict Z) :=
  match names with
  | [] => Some []
  | (name, years) :: rest =>
      match Py.min years, first_popular rest with
      | Some m, Some d => Some ((name, m + 1) :: d)
      | _, _ => None
      end
  end.

(** The body of the loop of [late_adopters] for one name. *)
Definition late_states (df : DataFrame) (year : Z) (name : string) (y : Z)
  : list string :=
  let early :=
    fold_left (fun early p => early ++ states_with_name df p name)
              (Py.range year y) [] in
  let late :=
    fold_left (fun late q => late ++ states_with_name df q name)
              (Py.range y (y + 3)) [] in
  filter (fun state => negb (Py.mem state early)) late.

(** [None] stands for the [ValueError] of [min] on an empty list of years. *)
Definition late_adopters (df : DataFrame) (year : Z) : option (list string) :=
  match first_popular (becomed_popular df year) with
  | None => None
  | Some names =>
      Some (fold_left
              (fun states item =>
                 states ++ late_states df year (fst item) (snd item))
              names [])
  end.

Definition late_adopters_period (df : DataFrame) (start end_ : Z)
  : option (Py.dict Z) :=
  fold_left
    (fun acc year =>
       match acc with
       | None => None
       | Some states =>
           match late_adopters df year with
           | None => None
           | Some late =>
               Some (if (0 <? List.length late)%nat
                     then fold_left tally late states
                     else states)
           end
       end)
    (Py.range start (end_ + 1)) (Some []).

(** ** Objects, store and exceptions *)

(** The frames the module creates, by the columns they carry. *)
Inductive object : Type :=
| ODataFrame (rows : list Row)
    (** [name], [gender], [count], [year], [state] *)
| OCounts (rows : list (string * Z))
    (** [name], [count] *)
| OGrouped (rows : list (string * Z))
    (** index [name]; column [count] *)
| ORanked (rows : list (string * Z * xreal)).
    (** index [name]; columns [count], [percentage] *)

Definition loc : Type := nat.
Definition store : Type := list object.

Inductive exn : Type :=
| KeyError     (** a column or object that is not there *)
| ValueError.  (** [min] of an empty sequence *)

Inductive outcome (A : Type) : Type :=
| Raise (e : exn)
| Return (a : A) (s : store).

Arguments Raise {A} e.
Arguments Return {A} a s.

Definition M (A : Type) : Type := store -> outcome A.

Definition ret {A} (a : A) : M A := fun s => Return a s.

Definition raise {A} (e : exn) : M A := fun _ => Raise e.

Definition bind {A B} (m : M A) (k : A -> M B) : M B :=
  fun s =>
    match m s with
    | Raise e => Raise e
    | Return a s' => k a s'
    end.

Notation "x <- m ;; k" := (bind m (fun x => k))
  (at level 61, m at next level, right associativity).
Notation "m ;;; k" := (bind m (fun _ => k))
  (at level 61, right associativity).

(** A [for] loop threading an accumulator. *)
Fixpoint foldM {A B} (f : B -> A -> M B) (l : list A) (b : B) : M B :=
  match l with
  | [] => ret b
  | x :: l' => b' <- f b x ;; foldM f l' b'
  end.

Fixpoint update {A} (l : list A) (i : nat) (x : A) : list A :=
  match l, i with
  | [], _ => []
  | _ :: l', O => x :: l'
  | y :: l', S i' => y :: update l' i' x
  end.

(** The functions of [util.py] as programs over the store.  [df] is a
    reference to the caller's frame. *)
Module Obj.

Definition alloc (o : object) : M loc :=
  fun s => Return (List.length s) (s ++ [o]).

Definition load (l : loc) : M object :=
  fun s =>
    match nth_error s l with
    | Some o => Return o s
    | None => Raise KeyError
    end.

Definition write (l : loc) (o : object) : M unit :=
  fun s =>
    match nth_error s l with
    | Some _ => Return tt (update s l o)
    | None => Raise KeyError
    end.

(** [df[mask]] for a row-wise boolean mask: a new frame. *)
Definition select (mask : Row -> bool) (df : loc) : M loc :=
  o <- load df ;;
  match o with
  | ODataFrame rows => alloc (ODataFrame (filter mask rows))
  | _ => raise KeyError
  end.

(** The values of [df['name']]. *)
Definition column_name (df : loc) : M (list string) :=
  o <- load df ;;
  match o with
  | ODataFrame rows => ret (map r_name rows)
  | _ => raise KeyError
  end.

(** The values of [df['state']]. *)
Definition column_state (df : loc) : M (list string) :=
  o <- load df ;;
  match o with
  | ODataFrame rows => ret (map r_state rows)
  | _ => raise KeyError
  end.

(** [df[['name', 'count']]]: a new frame. *)
Definition name_count (df : loc) : M loc :=
  o <- load df ;;
  match o with
  | ODataFrame rows =>
      alloc (OCounts (map (fun r => (r_name r, r_count r)) rows))
  | _ => raise KeyError
  end.

(** [frame.groupby(['name']).sum()]: a new frame. *)
Definition groupby_sum (frame : loc) : M loc :=
  o <- load frame ;;
  match o with
  | OCounts rows => alloc (OGrouped (Pd.groupby_sum rows))
  | _ => raise KeyError
  end.

(** The values of [frame['count']]. *)
Definition column_count (frame : loc) : M (list Z) :=
  o <- load frame ;;
  match o with
  | OGrouped rows => ret (map snd rows)
  | ORanked rows => ret (map (fun r => snd (fst r)) rows)
  | _ => raise KeyError
  end.

(** [frame['percentage'] = column]: the frame itself is updated. *)
Definition assign_percentage (frame : loc) (column : list xreal) : M unit :=
  o <- load frame ;;
  match o with
  | OGrouped rows => write frame (ORanked (Pd.assign rows column))
  | ORanked rows => write frame (ORanked (Pd.assign (map fst rows) column))
  | _ => raise KeyError
  end.

(** [len(frame)]. *)
Definition len (frame : loc) : M nat :=
  o <- load frame ;;
  match o with
  | ODataFrame rows => ret (List.length rows)
  | OCounts rows => ret (List.length rows)
  | OGrouped rows => ret (List.length rows)
  | ORanked rows => ret (List.length rows)
  end.

(** [frame.sort_values(by='percentage', ascending=False)]: a new frame. *)
Definition sort_values (frame : loc) : M loc :=
  o <- load frame ;;
  match o with
  | ORanked rows => alloc (ORanked (Pd.sort_values rows))
  | _ => raise KeyError
  end.

(** [frame[:n]]: a new frame. *)
Definition head (frame : loc) (n : nat) : M loc :=
  o <- load frame ;;
  match o with
  | ORanked rows => alloc (ORanked (firstn n rows))
  | _ => raise KeyError
  end.

(** The values of [frame.index]. *)
Definition index (frame : loc) : M (list string) :=
  o <- load frame ;;
  match o with
  | ORanked rows => ret (Pd.index rows)
  | _ => raise KeyError
  end.

Definition new_names (df : loc) (year : Z) : M Py.pyset :=
  previous <-
    select (fun r => (year - 11 <=? r_year r) && (r_year r <=? year - 1)) df ;;
  previous_name <- column_name previous ;;
  let previous_names := Py.set previous_name in
  current <- select (fun r => r_year r =? year) df ;;
  current_name <- column_name current ;;
  let current_names := Py.set current_name in
  let new_names :=
    filter (fun name => negb (Py.mem name previous_names)) current_names in
  ret (Py.set new_names).

Definition states_with_name (df : loc) (year : Z) (name : string)
  : M Py.pyset :=
  selected <-
    select (fun r => (r_year r =? year) && String.eqb (r_name r) name) df ;;
  state <- column_state selected ;;
  ret (Py.set state).

Definition popular_names (df : loc) (year : Z) : M Py.pyset :=
  current <- select (fun r => r_year r =? year) df ;;
  projected <- name_count current ;;
  current <- groupby_sum projected ;;
  counts <- column_count current ;;
  let total := Pd.sum64 counts in
  counts <- column_count current ;;
  assign_percentage current (Pd.percentage counts total) ;;;
  n <- len current ;;
  let top := Pd.ceil_tenth n in
  sorted <- sort_values current ;;
  current <- head sorted top ;;
  names <- index current ;;
  ret (Py.set names).

Definition becomed_popular (df : loc) (year : Z) : M (Py.dict (list Z)) :=
  new <- new_names df year ;;
  foldM
    (fun becomed y =>
       popular <- popular_names df y ;;
       let inter := Py.intersection new popular in
       ret (fold_left (note_year y) inter becomed))
    (Py.range year (year + 10)) [].

Definition trend_setter (df : loc) (year : Z) : M (list string) :=
  names <- becomed_popular df year ;;
  foldM
    (fun states name =>
       found <- states_with_name df year name ;;
       ret (states ++ found))
    (Py.keys names) [].

Definition trend_setter_period (df : loc) (start end_ : Z) : M (Py.dict Z) :=
  foldM
    (fun states year =>
       states_year <- trend_setter df year ;;
       if (0 <? List.length states_year)%nat
       then ret (fold_left tally states_year states)
       else ret states)
    (Py.range start (end_ + 1)) [].

Definition late_states (df : loc) (year : Z) (name : string) (y : Z)
  : M (list string) :=
  early <-
    foldM (fun early p =>
             found <- states_with_name df p name ;; ret (early ++ found))
          (Py.range year y) [] ;;
  late <-
    foldM (fun late q =>
             found <- states_with_name df q name ;; ret (late ++ found))
          (Py.range y (y + 3)) [] ;;
  ret (filter (fun state => negb (Py.mem state early)) late).

Definition late_adopters (df : loc) (year : Z) : M (list string) :=
  names <- becomed_popular df year ;;
  match first_popular names with
  | None => raise ValueError
  | Some names =>
      foldM
        (fun states item =>
           late <- late_states df year (fst item) (snd item) ;;
           ret (states ++ late))
        names []
  end.

Definition late_adopters_period (df : loc) (start end_ : Z)
  : M (Py.dict Z) :=
  foldM
    (fun states year =>
       late <- late_adopters df year ;;
       if (0 <? List.length late)%nat
       then ret (fold_left tally late states)
       else ret states)
    (Py.range start (end_ + 1)) [].

End Obj.

(** ** Vocabulary of the specification *)

(** Some record of [year] carries [name]. *)
Definition present (df : DataFrame) (year : Z) (name : string) : Prop :=
  exists r, In r df /\ r_year r = year /\ r_name r = name.

(** [name] is present in some year of [[lo, hi]]. *)
Definition present_within (df : DataFrame) (lo hi : Z) (name : string) : Prop :=
  exists y, lo <= y <= hi /\ present df y name.

(** Some record of [year] carries [name] in region [state]. *)
Definition reports (df : DataFrame) (year : Z) (name state : string) : Prop :=
  exists r, In r df /\ r_year r = year /\ r_name r = name /\ r_state r = state.

(** The distinct names of a year and their number. *)
Definition distinct_names (df : DataFrame) (year : Z) : list string :=
  Py.set (map r_name (filter (fun r => r_year r =? year) df)).

Definition distinct_name_count (df : DataFrame) (year : Z) : nat :=
  List.length (distinct_names df year).

(** Counts of a name summed over all records of a year, the total of the
    year, and the percentage share of the name, as pandas computes them:
    the sums in int64, the quotient and its product by 100 in binary64. *)
Definition name_count (df : DataFrame) (year : Z) (name : string) : Z :=
  Pd.sum64 (map r_count
            (filter (fun r => (r_year r =? year) && String.eqb (r_name r) name)
                    df)).

Definition year_total (df : DataFrame) (year : Z) : Z :=
  Pd.sum64 (map r_count (filter (fun r => r_year r =? year) df)).

Definition share (df : DataFrame) (year : Z) (name : string) : xreal :=
  xscale (truediv (name_count df year name) (year_total df year)) 100.

(** The table of a year before it is ranked: one row per distinct name, with
    its summed count and its share. *)
Definition shares (df : DataFrame) (year : Z) : list (string * Z * xreal) :=
  map (fun name => (name, name_count df year name, share df year name))
      (Pd.sort String.leb (distinct_names df year)).

(** A table is in descending order of percentage, [NaN] last. *)
Definition ranked_desc (rows : list (string * Z * xreal)) : Prop :=
  StronglySorted (fun x y => xleb (snd y) (snd x) = true) rows.

(** The years of the horizon [[year, year+9]] in which [name] is popular, in
    ascending order. *)
Definition popular_years (df : DataFrame) (year : Z) (name : string)
  : list Z :=
  filter (fun y => Py.mem name (popular_names df y))
         (Py.range year (year + 10)).

(** Number of occurrences of a region in a list of regions. *)
Definition occurrences (l : list string) (s : string) : Z :=
  Z.of_nat (count_occ string_dec l s).

(** Occurrences of a region in the lists [f year] over the years of
    [[start, end_]]. *)
Definition occurrences_over (f : Z -> list string) (start end_ : Z)
  (s : string) : Z :=
  Pd.sum (map (fun year => occurrences (f year) s)
              (Py.range start (end_ + 1))).

(** Least element of a list of years (of no interest on the empty list). *)
Definition least (years : list Z) : Z :=
  match years with
  | [] => 0
  | y :: rest => fold_right Z.min y rest
  end.

(** The regions reporting [name], year after year, each year contributing
    its set of regions. *)
Definition regions_over (df : DataFrame) (name : string) (years : list Z)
  : list string :=
  flat_map (fun y => states_with_name df y name) years.

(** What one emerged name contributes to [late_adopters], in the words of
    the specification. *)
Definition late_only (df : DataFrame) (year : Z) (name : string)
  (emergence_years : list Z) : list string :=
  let first_popular_year := least emergence_years + 1 in
  let early := regions_over df name (Py.range year first_popular_year) in
  let late :=
    regions_over df name (Py.range first_popular_year (first_popular_year + 3)) in
  filter (fun state => negb (Py.mem state early)) late.

Definition late_adopters_spec (df : DataFrame) (year : Z) : list string :=
  flat_map (fun item => late_only df year (fst item) (snd item))
           (becomed_popular df year).

(** The store holds the caller's frame at [df]. *)
Definition holds (s : store) (df : loc) (rows : DataFrame) : Prop :=
  nth_error s df = Some (ODataFrame rows).

(** A program run from any store holding the frame returns [v] and only
    adds objects to the store. *)
Definition returns {A} (df : loc) (rows : DataFrame) (m : M A) (v : A)
  : Prop :=
  forall s, holds s df rows -> exists fresh, m s = Return v (s ++ fresh).

(** A run returns normally; the caller's frame is afterwards what it was
    before (the same records, fields and order), and so is every other
    object that was in the store. *)
Definition leaves_unchanged {A} (df : loc) (m : M A) : Prop :=
  forall s rows,
    holds s df rows ->
    exists v s',
      m s = Return v s'
      /\ holds s' df rows
      /\ forall l o, nth_error s l = Some o -> nth_error s' l = Some o.

(** ** Further vocabulary *)

(** [d.get(k, 0)]: the tally of a region, zero when it has no entry. *)
Definition count_of (d : Py.dict Z) (k : string) : Z :=
  match Py.get d k with
  | Some n => n
  | None => 0
  end.

(** The counts of a name and of a year added up as integers, without the
    wrap-around of int64. *)
Definition exact_count (df : DataFrame) (year : Z) (name : string) : Z :=
  Pd.sum (map r_count
            (filter (fun r => (r_year r =? year) && String.eqb (r_name r) name)
                    df)).

Definition exact_total (df : DataFrame) (year : Z) : Z :=
  Pd.sum (map r_count (filter (fun r => r_year r =? year) df)).

(** The counts of [year] are non-negative and add up to less than [2^50]:
    no sum wraps around and no two different counts round to the same
    percentage. *)
Definition modest (df : DataFrame) (year : Z) : Prop :=
  (forall r, In r df -> r_year r = year -> 0 <= r_count r)
  /\ exact_total df year < 2 ^ 50.

(** The records of a frame whose year lies in [[lo, hi]]. *)
Definition between (lo hi : Z) (df : DataFrame) : DataFrame :=
  filter (fun r => (lo <=? r_year r) && (r_year r <=? hi)) df.

(** ** A small data set *)

Module Sample.
Local Open Scope string_scope.

(** "Zara" first appears in 2010, when ten names are registered; "CA"
    reports it in 2010 and 2011, "TX" from 2012 on. *)
Definition frame : DataFrame :=
  [ mkRow "Zara" "F" 90 2010 "CA"; mkRow "Ann" "F" 12 2010 "CA";
    mkRow "Bea" "F" 11 2010 "CA";  mkRow "Cy" "M" 10 2010 "TX";
    mkRow "Dee" "F" 9 2010 "TX";   mkRow "Eli" "M" 8 2010 "TX";
    mkRow "Fay" "F" 7 2010 "NY";   mkRow "Gus" "M" 6 2010 "NY";
    mkRow "Hal" "M" 5 2010 "NY";   mkRow "Ann" "F" 5 2010 "NY";
    mkRow "Ida" "F" 5 2010 "CA";
    mkRow "Ann" "F" 14 2009 "CA";  mkRow "Bea" "F" 9 2009 "TX";
    mkRow "Zara" "F" 80 2011 "CA"; mkRow "Ann" "F" 10 2011 "NY";
    mkRow "Zara" "F" 70 2012 "TX"; mkRow "Zara" "F" 60 2012 "CA";
    mkRow "Ann" "F" 10 2012 "NY";
    mkRow "Zara" "F" 50 2013 "TX"; mkRow "Zara" "F" 0 2014 "WA" ].

(** A frame whose only year has a total count of zero. *)
Definition zeros : DataFrame :=
  [ mkRow "Ann" "F" 0 2000 "CA"; mkRow "Bea" "F" 0 2000 "TX" ].

(** Two counts so large that their percentages round to the same
    binary64 value. *)
Definition huge : DataFrame :=
  [ mkRow "A" "F" (2 ^ 53) 2000 "CA"; mkRow "B" "F" (2 ^ 53 + 1) 2000 "CA" ].
End Sample.

(** * Properties *)

(** ** Python values *)

Lemma mem_In (x : string) (l : list string) : Py.mem x l = true <-> In x l.
Proof.
  unfold Py.mem. rewrite existsb_exists. split.
  - intros [y [Hy E]]. apply String.eqb_eq in E. now subst.
  - intros H. exists x. split; [assumption | apply String.eqb_refl].
Qed.

Lemma mem_false (x : string) (l : list string) :
  Py.mem x l = false <-> ~ In x l.
Proof.
  rewrite <- mem_In. destruct (Py.mem x l); split; congruence.
Qed.

Lemma In_range (lo hi y : Z) : In y (Py.range lo hi) <-> lo <= y < hi.
Proof.
  unfold Py.range. rewrite in_map_iff. split.
  - intros [i [E Hi]]. apply in_seq in Hi. lia.
  - intros H. exists (Z.to_nat (y - lo)). split; [lia |].
    apply in_seq. lia.
Qed.

Lemma range_empty (lo hi : Z) : hi <= lo -> Py.range lo hi = [].
Proof.
  intros H. unfold Py.range. replace (Z.to_nat (hi - lo)) with O by lia.
  reflexivity.
Qed.

Lemma range_cons (lo hi : Z) :
  lo < hi -> Py.range lo hi = lo :: Py.range (lo + 1) hi.
Proof.
  intros H. unfold Py.range.
  replace (Z.to_nat (hi - lo)) with (S (Z.to_nat (hi - (lo + 1)))) by lia.
  cbn [seq map]. f_equal; [lia |].
  rewrite <- seq_shift, map_map. apply map_ext. intros i. lia.
Qed.

Lemma range_snoc (lo hi : Z) :
  lo <= hi -> Py.range lo (hi + 1) = Py.range lo hi ++ [hi].
Proof.
  intros H. unfold Py.range.
  replace (Z.to_nat (hi + 1 - lo)) with (Z.to_nat (hi - lo) + 1)%nat by lia.
  rewrite seq_app, map_app. cbn. do 2 f_equal. lia.
Qed.

Lemma set_In (l : list string) (x : string) : In x (Py.set l) <-> In x l.
Proof. apply nodup_In. Qed.

Lemma NoDup_set (l : list string) : NoDup (Py.set l).
Proof. apply NoDup_nodup. Qed.

Lemma set_NoDup (l : list string) : NoDup l -> Py.set l = l.
Proof. apply nodup_fixed_point. Qed.

Lemma In_intersection (a b : Py.pyset) (x : string) :
  In x (Py.intersection a b) <-> In x a /\ In x b.
Proof. unfold Py.intersection. now rewrite filter_In, mem_In. Qed.

Lemma NoDup_intersection (a b : Py.pyset) :
  NoDup a -> NoDup (Py.intersection a b).
Proof. apply NoDup_filter. Qed.

(** ** Novelty detector and geographic locator *)

Lemma present_iff (df : DataFrame) (year : Z) (name : string) :
  In name (map r_name (filter (fun r => r_year r =? year) df))
  <-> present df year name.
Proof.
  rewrite in_map_iff. unfold present. split.
  - intros [r [E H]]. apply filter_In in H. destruct H as [H Hy].
    exists r. repeat split; [assumption | lia | assumption].
  - intros [r [H [Hy E]]]. exists r. split; [assumption |].
    apply filter_In. split; [assumption | lia].
Qed.

Lemma present_within_iff (df : DataFrame) (lo hi : Z) (name : string) :
  In name
     (map r_name (filter (fun r => (lo <=? r_year r) && (r_year r <=? hi)) df))
  <-> present_within df lo hi name.
Proof.
  rewrite in_map_iff. unfold present_within, present. split.
  - intros [r [E H]]. apply filter_In in H. destruct H as [H Hy].
    apply andb_true_iff in Hy. exists (r_year r). split; [lia |].
    exists r. auto.
  - intros [y [Hy [r [H [E1 E2]]]]]. exists r. split; [assumption |].
    apply filter_In. split; [assumption |].
    apply andb_true_iff. lia.
Qed.

Lemma In_new_names (df : DataFrame) (year : Z) (name : string) :
  In name (new_names df year)
  <-> present df year name /\ ~ present_within df (year - 11) (year - 1) name.
Proof.
  unfold new_names. rewrite set_In, filter_In, set_In, present_iff.
  rewrite negb_true_iff, mem_false, set_In, present_within_iff.
  reflexivity.
Qed.

Lemma NoDup_new_names (df : DataFrame) (year : Z) : NoDup (new_names df year).
Proof. apply NoDup_set. Qed.

Lemma In_states_with_name (df : DataFrame) (year : Z) (name state : string) :
  In state (states_with_name df year name) <-> reports df year name state.
Proof.
  unfold states_with_name, reports. rewrite set_In, in_map_iff. split.
  - intros [r [E H]]. apply filter_In in H. destruct H as [H C].
    apply andb_true_iff in C. destruct C as [Hy Hn].
    apply String.eqb_eq in Hn. exists r. repeat split; auto. lia.
  - intros [r [H [Hy [Hn E]]]]. exists r. split; [assumption |].
    apply filter_In. split; [assumption |].
    apply andb_true_iff. split; [lia | now apply String.eqb_eq].
Qed.

Lemma nil_of_no_member {A} (l : list A) : (forall x, ~ In x l) -> l = [].
Proof.
  destruct l as [| a l]; [reflexivity |].
  intros H. exfalso. apply (H a). now left.
Qed.

(** ** The store *)

Lemma holds_app (s fresh : store) (df : loc) (rows : DataFrame) :
  holds s df rows -> holds (s ++ fresh) df rows.
Proof.
  unfold holds. intros H. rewrite nth_error_app1; [assumption |].
  apply nth_error_Some. congruence.
Qed.

Lemma nth_error_fresh {A} (s t : list A) (o : A) :
  nth_error (s ++ o :: t) (List.length s) = Some o.
Proof.
  rewrite nth_error_app2 by lia. now rewrite Nat.sub_diag.
Qed.

Lemma update_fresh {A} (s t : list A) (o x : A) :
  update (s ++ o :: t) (List.length s) x = s ++ x :: t.
Proof.
  induction s as [| a s IH]; [reflexivity |].
  cbn. now rewrite IH.
Qed.

Lemma bind_run {A B} (m : M A) (k : A -> M B) (s s' : store) (a : A) :
  m s = Return a s' -> bind m k s = k a s'.
Proof. unfold bind. now intros ->. Qed.

Lemma select_run (mask : Row -> bool) (l : loc) (rows : list Row) (s : store) :
  nth_error s l = Some (ODataFrame rows) ->
  Obj.select mask l s
  = Return (List.length s) (s ++ [ODataFrame (filter mask rows)]).
Proof. unfold Obj.select, Obj.load, bind. now intros ->. Qed.

Lemma column_name_run (l : loc) (rows : list Row) (s : store) :
  nth_error s l = Some (ODataFrame rows) ->
  Obj.column_name l s = Return (map r_name rows) s.
Proof. unfold Obj.column_name, Obj.load, bind. now intros ->. Qed.

Lemma column_state_run (l : loc) (rows : list Row) (s : store) :
  nth_error s l = Some (ODataFrame rows) ->
  Obj.column_state l s = Return (map r_state rows) s.
Proof. unfold Obj.column_state, Obj.load, bind. now intros ->. Qed.

Lemma name_count_run (l : loc) (rows : list Row) (s : store) :
  nth_error s l = Some (ODataFrame rows) ->
  Obj.name_count l s
  = Return (List.length s)
           (s ++ [OCounts (map (fun r => (r_name r, r_count r)) rows)]).
Proof. unfold Obj.name_count, Obj.load, bind. now intros ->. Qed.

Lemma groupby_sum_run (l : loc) (rows : list (string * Z)) (s : store) :
  nth_error s l = Some (OCounts rows) ->
  Obj.groupby_sum l s
  = Return (List.length s) (s ++ [OGrouped (Pd.groupby_sum rows)]).
Proof. unfold Obj.groupby_sum, Obj.load, bind. now intros ->. Qed.

Lemma column_count_run (l : loc) (rows : list (string * Z)) (s : store) :
  nth_error s l = Some (OGrouped rows) ->
  Obj.column_count l s = Return (map snd rows) s.
Proof. unfold Obj.column_count, Obj.load, bind. now intros ->. Qed.

Lemma assign_percentage_run (rows : list (string * Z)) (column : list xreal)
  (s : store) :
  Obj.assign_percentage (List.length s) column (s ++ [OGrouped rows])
  = Return tt (s ++ [ORanked (Pd.assign rows column)]).
Proof.
  unfold Obj.assign_percentage, Obj.load, Obj.write, bind.
  rewrite !nth_error_fresh. now rewrite update_fresh.
Qed.

Lemma len_run (l : loc) (rows : list (string * Z * xreal)) (s : store) :
  nth_error s l = Some (ORanked rows) ->
  Obj.len l s = Return (List.length rows) s.
Proof. unfold Obj.len, Obj.load, bind. now intros ->. Qed.

Lemma sort_values_run (l : loc) (rows : list (string * Z * xreal))
  (s : store) :
  nth_error s l = Some (ORanked rows) ->
  Obj.sort_values l s
  = Return (List.length s) (s ++ [ORanked (Pd.sort_values rows)]).
Proof. unfold Obj.sort_values, Obj.load, bind. now intros ->. Qed.

Lemma head_run (l : loc) (n : nat) (rows : list (string * Z * xreal))
  (s : store) :
  nth_error s l = Some (ORanked rows) ->
  Obj.head l n s = Return (List.length s) (s ++ [ORanked (firstn n rows)]).
Proof. unfold Obj.head, Obj.load, bind. now intros ->. Qed.

Lemma index_run (l : loc) (rows : list (string * Z * xreal)) (s : store) :
  nth_error s l = Some (ORanked rows) ->
  Obj.index l s = Return (Pd.index rows) s.
Proof. unfold Obj.index, Obj.load, bind. now intros ->. Qed.

(** Runs one operation of a straight-line program. *)
Ltac run_with L :=
  erewrite bind_run;
  [| apply L; first [ apply nth_error_fresh | apply holds_app; eassumption
                    | eassumption ] ].

Section Returns.
Variable df : loc.
Variable rows : DataFrame.

Lemma returns_ret {A} (v : A) : returns df rows (ret v) v.
Proof.
  intros s _. exists []. now rewrite app_nil_r.
Qed.

Lemma returns_bind {A B} (m : M A) (k : A -> M B) (v : A) (w : B) :
  returns df rows m v -> returns df rows (k v) w ->
  returns df rows (bind m k) w.
Proof.
  intros Hm Hk s H. destruct (Hm s H) as [f1 E1].
  destruct (Hk (s ++ f1) (holds_app f1 H)) as [f2 E2].
  exists (f1 ++ f2). unfold bind. rewrite E1, E2. now rewrite app_assoc.
Qed.

Lemma returns_foldM {A B} (f : B -> A -> M B) (g : B -> A -> B)
  (l : list A) :
  (forall b x, returns df rows (f b x) (g b x)) ->
  forall b, returns df rows (foldM f l b) (fold_left g l b).
Proof.
  intros Hf. induction l as [| x l IH]; intros b; cbn.
  - apply returns_ret.
  - eapply returns_bind; [apply Hf | apply IH].
Qed.

Lemma returns_new_names (year : Z) :
  returns df rows (Obj.new_names df year) (new_names rows year).
Proof.
  intros s H. unfold Obj.new_names.
  run_with select_run. run_with column_name_run.
  run_with select_run. run_with column_name_run.
  exists [ODataFrame
            (filter (fun r => (year - 11 <=? r_year r)
                              && (r_year r <=? year - 1)) rows);
          ODataFrame (filter (fun r => r_year r =? year) rows)].
  unfold ret, new_names. now rewrite <- app_assoc.
Qed.

Lemma returns_states_with_name (year : Z) (name : string) :
  returns df rows (Obj.states_with_name df year name)
          (states_with_name rows year name).
Proof.
  intros s H. unfold Obj.states_with_name.
  run_with select_run. run_with column_state_run.
  eexists. reflexivity.
Qed.

Lemma returns_popular_names (year : Z) :
  returns df rows (Obj.popular_names df year) (popular_names rows year).
Proof.
  intros s H. unfold Obj.popular_names.
  run_with select_run. run_with name_count_run.
  run_with groupby_sum_run.
  run_with column_count_run. run_with column_count_run.
  erewrite bind_run by apply assign_percentage_run.
  run_with len_run. run_with sort_values_run. run_with head_run.
  run_with index_run.
  unfold ret, popular_names, Pd.assign.
  eexists. rewrite <- !app_assoc. cbn [app]. reflexivity.
Qed.

End Returns.

(** ** Sorting *)

Lemma In_firstn {A} (l : list A) (k : nat) (x : A) :
  In x (firstn k l) -> In x l.
Proof.
  intros H. rewrite <- (firstn_skipn k l). apply in_or_app. now left.
Qed.

Lemma In_skipn {A} (l : list A) (k : nat) (x : A) :
  In x (skipn k l) -> In x l.
Proof.
  intros H. rewrite <- (firstn_skipn k l). apply in_or_app. now right.
Qed.

Section SortFacts.
Variable A : Type.
Variable before : A -> A -> bool.

Lemma insert_perm (x : A) (l : list A) :
  Permutation (Pd.insert before x l) (x :: l).
Proof.
  induction l as [| y l IH]; cbn; [reflexivity |].
  destruct (before x y); [reflexivity |].
  rewrite IH. apply perm_swap.
Qed.

Lemma sort_perm (l : list A) : Permutation (Pd.sort before l) l.
Proof.
  induction l as [| x l IH]; cbn; [reflexivity |].
  rewrite insert_perm. now constructor.
Qed.

Hypothesis before_total : forall x y, before x y = true \/ before y x = true.
Hypothesis before_trans :
  forall x y z, before x y = true -> before y z = true -> before x z = true.

Lemma insert_sorted (x : A) (l : list A) :
  StronglySorted (fun a b => before a b = true) l ->
  StronglySorted (fun a b => before a b = true) (Pd.insert before x l).
Proof.
  induction l as [| y l IH]; intros Hs; cbn.
  - repeat constructor.
  - inversion Hs as [| ? ? Hl Hy]; subst.
    destruct (before x y) eqn:E.
    + constructor; [assumption |]. constructor; [exact E |].
      eapply Forall_impl; [| exact Hy].
      intros z Hz. exact (before_trans E Hz).
    + constructor; [now apply IH |].
      apply (Permutation_Forall (Permutation_sym (insert_perm x l))).
      constructor; [| assumption].
      destruct (before_total x y) as [C | C]; [congruence | exact C].
Qed.

Lemma sort_sorted (l : list A) :
  StronglySorted (fun a b => before a b = true) (Pd.sort before l).
Proof.
  induction l as [| x l IH]; cbn; [constructor | now apply insert_sorted].
Qed.

Lemma sorted_split (l : list A) (k : nat) (a b : A) :
  StronglySorted (fun x y => before x y = true) l ->
  In a (firstn k l) -> In b (skipn k l) ->
  before a b = true.
Proof.
  revert k. induction l as [| x l IH]; intros k Hs Ha Hb.
  - rewrite firstn_nil in Ha. contradiction.
  - destruct k as [| k]; [contradiction |].
    inversion Hs as [| ? ? Hl Hx]; subst. cbn in Ha, Hb.
    destruct Ha as [-> | Ha].
    + rewrite Forall_forall in Hx. apply Hx.
      eapply In_skipn. exact Hb.
    + now apply (IH k).
Qed.

End SortFacts.

Lemma xleb_total (a b : xreal) : xleb a b = true \/ xleb b a = true.
Proof.
  destruct a as [| | p |], b as [| | q |]; cbn; auto.
  rewrite !Qle_bool_iff.
  destruct (Qlt_le_dec p q) as [H | H]; [left; now apply Qlt_le_weak | now right].
Qed.

Lemma xleb_trans (a b c : xreal) :
  xleb a b = true -> xleb b c = true -> xleb a c = true.
Proof.
  destruct a as [| | p |], b as [| | q |], c as [| | r |]; cbn;
    try congruence.
  rewrite !Qle_bool_iff. apply Qle_trans.
Qed.

(** ** Popularity ranker *)

Lemma sum_cons (x : Z) (l : list Z) : Pd.sum (x :: l) = x + Pd.sum l.
Proof. reflexivity. Qed.

Lemma sum_app (l1 l2 : list Z) : Pd.sum (l1 ++ l2) = Pd.sum l1 + Pd.sum l2.
Proof.
  induction l1 as [| x l1 IH]; cbn [app]; [reflexivity |].
  rewrite !sum_cons, IH. lia.
Qed.

Lemma sum_pointwise {A} (f g : A -> Z) (l : list A) :
  Pd.sum (map (fun x => f x + g x) l) = Pd.sum (map f l) + Pd.sum (map g l).
Proof.
  induction l as [| x l IH]; cbn [map]; [reflexivity |].
  rewrite !sum_cons, IH. lia.
Qed.

Lemma sum_indicator (a : string) (v : Z) (l : list string) :
  NoDup l ->
  Pd.sum (map (fun n => if String.eqb a n then v else 0) l)
  = if Py.mem a l then v else 0.
Proof.
  induction 1 as [| x l Hx Hl IH]; [reflexivity |].
  cbn [map]. rewrite sum_cons, IH. unfold Py.mem. cbn [existsb].
  fold (Py.mem a l).
  destruct (String.eqb a x) eqn:E; cbn [orb]; [| lia].
  apply String.eqb_eq in E. subst x.
  apply mem_false in Hx. rewrite Hx. lia.
Qed.

Lemma wrap64_add_r (c a : Z) :
  Np.wrap64 (c + Np.wrap64 a) = Np.wrap64 (c + a).
Proof.
  unfold Np.wrap64. f_equal.
  replace (c + ((a + 2 ^ 63) mod 2 ^ 64 - 2 ^ 63) + 2 ^ 63)
    with (c + (a + 2 ^ 63) mod 2 ^ 64) by ring.
  rewrite Z.add_mod_idemp_r by (apply Z.pow_nonzero; lia).
  f_equal. ring.
Qed.

Lemma wrap64_add_l (a c : Z) :
  Np.wrap64 (Np.wrap64 a + c) = Np.wrap64 (a + c).
Proof. now rewrite Z.add_comm, wrap64_add_r, Z.add_comm. Qed.

(** Adding up in int64 values that were themselves added up in int64 gives
    the int64 sum of the whole. *)
Lemma wrap64_sum_map {A} (f : A -> Z) (l : list A) :
  Np.wrap64 (Pd.sum (map (fun x => Np.wrap64 (f x)) l))
  = Np.wrap64 (Pd.sum (map f l)).
Proof.
  induction l as [| x l IH]; [reflexivity |].
  cbn [map]. rewrite !sum_cons, wrap64_add_l.
  now rewrite <- wrap64_add_r, IH, wrap64_add_r.
Qed.

Lemma sum_filter_cons (r : string * Z) (rows : list (string * Z))
  (name : string) :
  Pd.sum (map snd (filter (fun x => String.eqb (fst x) name) (r :: rows)))
  = (if String.eqb (fst r) name then snd r else 0)
    + Pd.sum (map snd (filter (fun x => String.eqb (fst x) name) rows)).
Proof.
  cbn [filter]. destruct (String.eqb (fst r) name); [reflexivity | lia].
Qed.

(** Adding up the groups adds up the frame. *)
Lemma sum_groups (rows : list (string * Z)) (names : list string) :
  NoDup names -> (forall r, In r rows -> In (fst r) names) ->
  Pd.sum
    (map (fun name =>
            Pd.sum (map snd (filter (fun x => String.eqb (fst x) name) rows)))
         names)
  = Pd.sum (map snd rows).
Proof.
  intros Hn. induction rows as [| r rows IH]; intros Hin.
  - clear Hn Hin. induction names as [| n names IHn]; [reflexivity |].
    cbn [map]. now rewrite sum_cons, IHn.
  - rewrite (map_ext _ _ (sum_filter_cons r rows)), sum_pointwise.
    rewrite (sum_indicator _ _ Hn), IH by (intros; apply Hin; now right).
    assert (E : Py.mem (fst r) names = true)
      by (apply mem_In, Hin; now left).
    rewrite E. reflexivity.
Qed.

Lemma sum64_groups (rows : list (string * Z)) (names : list string) :
  NoDup names -> (forall r, In r rows -> In (fst r) names) ->
  Pd.sum64 (map (Pd.group_sum rows) names) = Pd.sum64 (map snd rows).
Proof.
  intros Hn Hin. unfold Pd.sum64, Pd.group_sum, Pd.sum64.
  now rewrite wrap64_sum_map, sum_groups.
Qed.

Lemma group_sum_name_count (df : DataFrame) (year : Z) (name : string) :
  Pd.group_sum
    (map (fun r => (r_name r, r_count r)) (filter (fun r => r_year r =? year) df))
    name
  = name_count df year name.
Proof.
  unfold Pd.group_sum, name_count. f_equal.
  induction df as [| r df IH]; [reflexivity |].
  cbn [filter map]. destruct (r_year r =? year); cbn [filter map fst andb];
    [| exact IH].
  destruct (String.eqb (r_name r) name); cbn [map snd];
    [now rewrite IH | exact IH].
Qed.

Lemma combine_map_snd {A B C} (f : B -> C) (l : list (A * B)) :
  combine l (map f (map snd l)) = map (fun r => (r, f (snd r))) l.
Proof.
  induction l as [| r l IH]; cbn; [reflexivity | now rewrite IH].
Qed.

Lemma NoDup_sorted_names (df : DataFrame) (year : Z) :
  NoDup (Pd.sort String.leb (distinct_names df year)).
Proof.
  apply (Permutation_NoDup (Permutation_sym (sort_perm _ _))).
  apply NoDup_set.
Qed.

Lemma In_sorted_names (df : DataFrame) (year : Z) (name : string) :
  In name (Pd.sort String.leb (distinct_names df year))
  <-> In name (distinct_names df year).
Proof.
  split; apply Permutation_in;
    [apply sort_perm | apply Permutation_sym, sort_perm].
Qed.

Lemma index_shares (df : DataFrame) (year : Z) :
  Pd.index (shares df year) = Pd.sort String.leb (distinct_names df year).
Proof.
  unfold Pd.index, shares. rewrite map_map. cbn. apply map_id.
Qed.

Lemma length_shares (df : DataFrame) (year : Z) :
  List.length (shares df year) = distinct_name_count df year.
Proof.
  unfold shares, distinct_name_count. rewrite length_map.
  apply Permutation_length, sort_perm.
Qed.

Lemma NoDup_index_sorted (df : DataFrame) (year : Z) :
  NoDup (Pd.index (Pd.sort_values (shares df year))).
Proof.
  apply (@Permutation_NoDup _ (Pd.index (shares df year))).
  - unfold Pd.index. apply Permutation_map, Permutation_sym, sort_perm.
  - rewrite index_shares. apply NoDup_sorted_names.
Qed.

Lemma NoDup_firstn {A} (l : list A) (k : nat) : NoDup l -> NoDup (firstn k l).
Proof.
  intros H. rewrite <- (firstn_skipn k l) in H.
  exact (NoDup_app_remove_r _ _ H).
Qed.

(** The ranker, step by step, in the vocabulary of the specification. *)
Lemma popular_names_eq (df : DataFrame) (year : Z) :
  popular_names df year
  = Pd.index (firstn (Pd.ceil_tenth (distinct_name_count df year))
                     (Pd.sort_values (shares df year))).
Proof.
  assert (E : Pd.assign
                (Pd.groupby_sum
                   (map (fun r => (r_name r, r_count r))
                        (filter (fun r => r_year r =? year) df)))
                (Pd.percentage
                   (map snd
                      (Pd.groupby_sum
                         (map (fun r => (r_name r, r_count r))
                              (filter (fun r => r_year r =? year) df))))
                   (Pd.sum64
                      (map snd
                         (Pd.groupby_sum
                            (map (fun r => (r_name r, r_count r))
                                 (filter (fun r => r_year r =? year) df))))))
              = shares df year).
  { unfold Pd.assign, Pd.percentage. rewrite combine_map_snd.
    unfold Pd.groupby_sum. rewrite !map_map. cbn [fst snd].
    fold (distinct_names df year). unfold shares.
    apply map_ext. intros name. rewrite group_sum_name_count.
    unfold share. do 3 f_equal.
    rewrite (map_ext _ _ (group_sum_name_count df year)).
    rewrite <- (map_ext _ _ (group_sum_name_count df year)).
    rewrite sum64_groups.
    - unfold year_total. now rewrite map_map.
    - apply NoDup_sorted_names.
    - intros r Hr. apply In_sorted_names. unfold distinct_names.
      apply set_In. rewrite <- (map_map (fun r => (r_name r, r_count r)) fst).
      now apply in_map. }
  unfold popular_names. rewrite E, length_shares.
  apply set_NoDup. unfold Pd.index. rewrite <- firstn_map.
  apply NoDup_firstn, NoDup_index_sorted.
Qed.

Lemma ceil_tenth_spec (n k : nat) :
  (Pd.ceil_tenth n <= k <-> n <= 10 * k)%nat.
Proof.
  unfold Pd.ceil_tenth. split; intros H.
  - pose proof (Nat.div_mod_eq (n + 9) 10) as E.
    pose proof (Nat.mod_upper_bound (n + 9) 10) as B. lia.
  - apply Nat.lt_succ_r, Nat.Div0.div_lt_upper_bound. lia.
Qed.

Lemma ceil_tenth_le (n : nat) : (Pd.ceil_tenth n <= n)%nat.
Proof. apply ceil_tenth_spec. lia. Qed.

Lemma In_popular_names_present (df : DataFrame) (year : Z) (name : string) :
  In name (popular_names df year) -> present df year name.
Proof.
  rewrite popular_names_eq. unfold Pd.index. rewrite <- firstn_map.
  intros H. apply In_firstn in H.
  apply (Permutation_in _ (Permutation_map _ (sort_perm _ _))) in H.
  fold (Pd.index (shares df year)) in H. rewrite index_shares in H.
  apply In_sorted_names in H. unfold distinct_names in H.
  now apply set_In, present_iff in H.
Qed.

Lemma length_popular_names (df : DataFrame) (year : Z) :
  List.length (popular_names df year)
  = Pd.ceil_tenth (distinct_name_count df year).
Proof.
  rewrite popular_names_eq. unfold Pd.index.
  rewrite length_map, length_firstn. unfold Pd.sort_values.
  rewrite (Permutation_length (sort_perm _ _)), length_shares.
  pose proof (ceil_tenth_le (distinct_name_count df year)). lia.
Qed.

Lemma NoDup_popular_names (df : DataFrame) (year : Z) :
  NoDup (popular_names df year).
Proof.
  rewrite popular_names_eq. unfold Pd.index. rewrite <- firstn_map.
  apply NoDup_firstn, NoDup_index_sorted.
Qed.

Lemma In_shares (df : DataFrame) (year : Z) (r : string * Z * xreal) :
  In r (shares df year) ->
  snd r = share df year (fst (fst r)) /\ In (fst (fst r)) (distinct_names df year).
Proof.
  unfold shares. rewrite in_map_iff. intros [name [<- H]]. cbn.
  split; [reflexivity | now apply In_sorted_names].
Qed.

(** Every name left out has a share no larger than every name taken,
    whatever order the sort gives to equal percentages. *)
Lemma any_ranking_top (df : DataFrame) (year : Z)
  (sorted : list (string * Z * xreal)) (k : nat) (a b : string) :
  Permutation sorted (shares df year) -> ranked_desc sorted ->
  In a (Pd.index (firstn k sorted)) -> present df year b ->
  ~ In b (Pd.index (firstn k sorted)) ->
  xleb (share df year b) (share df year a) = true.
Proof.
  intros Hp Hs Ha Hb Hnb.
  unfold Pd.index in Ha. apply in_map_iff in Ha. destruct Ha as [ra [Ea Ha]].
  assert (Sa : snd ra = share df year a).
  { apply In_firstn in Ha. apply (Permutation_in _ Hp) in Ha.
    apply In_shares in Ha. now rewrite <- Ea. }
  set (rb := (b, name_count df year b, share df year b)).
  assert (Hrb : In rb sorted).
  { apply (Permutation_in _ (Permutation_sym Hp)).
    unfold shares. apply in_map_iff. exists b. split; [reflexivity |].
    apply In_sorted_names. unfold distinct_names.
    now apply set_In, present_iff. }
  rewrite <- (firstn_skipn k sorted) in Hrb. apply in_app_or in Hrb.
  destruct Hrb as [Hrb | Hrb].
  - exfalso. apply Hnb. unfold Pd.index. apply in_map_iff.
    exists rb. split; [reflexivity | assumption].
  - rewrite <- Sa. change (share df year b) with (snd rb).
    now apply (@sorted_split _ (fun x y => xleb (snd y) (snd x)) sorted k
                             ra rb).
Qed.

Lemma sort_values_ranked (rows : list (string * Z * xreal)) :
  ranked_desc (Pd.sort_values rows).
Proof.
  apply sort_sorted.
  - intros x y. apply xleb_total.
  - intros x y z H1 H2. exact (xleb_trans _ _ _ H2 H1).
Qed.

Lemma popular_names_top (df : DataFrame) (year : Z) (a b : string) :
  In a (popular_names df year) -> present df year b ->
  ~ In b (popular_names df year) ->
  xleb (share df year b) (share df year a) = true.
Proof.
  rewrite popular_names_eq.
  apply any_ranking_top; [apply sort_perm | apply sort_values_ranked].
Qed.

(** ** Binary64 rounding *)

Lemma shl_nonneg (x e : Z) : 0 <= e -> Np.shl x e = x * 2 ^ e.
Proof. intros H. unfold Np.shl. now rewrite Z.max_l by lia. Qed.

Lemma shl_neg (x e : Z) : e <= 0 -> Np.shl x e = x.
Proof. intros H. unfold Np.shl. rewrite Z.max_r by lia. cbn. lia. Qed.

Lemma pow2_pos (e : Z) : 0 <= e -> 0 < 2 ^ e.
Proof. intros H. apply Z.pow_pos_nonneg; lia. Qed.

(** [2^e <= n / d] for the exponent [e] of [n / d]. *)
Lemma exponent_lb (n d : Z) :
  0 < n -> 0 < d ->
  Np.shl d (Np.exponent n d) <= Np.shl n (- Np.exponent n d).
Proof.
  intros Hn Hd. unfold Np.exponent.
  set (e := Z.log2 n - Z.log2 d).
  destruct (Np.shl d e <=? Np.shl n (- e)) eqn:T; [now apply Z.leb_le |].
  clear T.
  destruct (Z.log2_spec n Hn) as [Ln _].
  destruct (Z.log2_spec d Hd) as [_ Ld].
  pose proof (Z.log2_nonneg n) as Nn. pose proof (Z.log2_nonneg d) as Nd.
  destruct (Z_le_gt_dec 0 (e - 1)) as [P | P].
  - rewrite shl_nonneg, shl_neg by lia.
    assert (E : 2 ^ Z.log2 n = 2 ^ Z.succ (Z.log2 d) * 2 ^ (e - 1)).
    { rewrite <- Z.pow_add_r by lia. f_equal. unfold e. lia. }
    pose proof (pow2_pos P). nia.
  - rewrite shl_neg, shl_nonneg by lia.
    assert (E : 2 ^ Z.succ (Z.log2 d) = 2 ^ Z.log2 n * 2 ^ (- (e - 1))).
    { rewrite <- Z.pow_add_r by lia. f_equal. unfold e. lia. }
    assert (0 < 2 ^ (- (e - 1))) by (apply pow2_pos; lia). nia.
Qed.

Lemma round_at_pos (n d s : Z) :
  0 < n -> 0 < d -> 0 < s ->
  exists m',
    Np.round_at n d s = Qmake m' (Z.to_pos (2 ^ s))
    /\ (n * 2 ^ s) / d <= m' <= (n * 2 ^ s) / d + 1
    /\ ((n * 2 ^ s) mod d = 0 -> m' = (n * 2 ^ s) / d).
Proof.
  intros Hn Hd Hs. unfold Np.round_at.
  rewrite (shl_nonneg n) by lia. rewrite (shl_neg d) by lia.
  rewrite (shl_nonneg 1) by lia. rewrite Z.mul_1_l.
  set (m := n * 2 ^ s / d). set (r := (n * 2 ^ s) mod d).
  cbv zeta.
  set (m' := if 2 * r <? d then m
             else if d <? 2 * r then m + 1
             else if Z.even m then m else m + 1).
  exists m'. rewrite (shl_neg m') by lia.
  split; [reflexivity |].
  assert (C : m' = m \/ (m' = m + 1 /\ r <> 0)).
  { unfold m'. destruct (2 * r <? d) eqn:A; [now left |].
    apply Z.ltb_ge in A.
    assert (r <> 0) by lia.
    destruct (d <? 2 * r); [right; now split |].
    destruct (Z.even m); [now left | right; now split]. }
  split; [destruct C as [-> | [-> _]]; lia |].
  intros E. destruct C as [-> | [_ N]]; [reflexivity | contradiction].
Qed.

Section Sandwich.
Variables n d G k : Z.
Hypothesis Hn : 0 < n.
Hypothesis Hd : 0 < d.
Hypothesis Hsmall : n < d * 2 ^ 52.
Hypothesis HG : 0 <= G < 2 ^ 53.
Hypothesis Hk : 0 <= k <= 1074.

Lemma exponent_small : Np.exponent n d <= 51.
Proof.
  pose proof (exponent_lb Hn Hd) as L.
  destruct (Z_le_gt_dec (Np.exponent n d) 51) as [P | P]; [exact P | exfalso].
  rewrite shl_nonneg, shl_neg in L by lia.
  assert (2 ^ 52 <= 2 ^ Np.exponent n d) by (apply Z.pow_le_mono_r; lia).
  nia.
Qed.

(** In the normal range the scaled value is at least [2^52]. *)
Lemma scaled_lb :
  d * 2 ^ 52 <= n * 2 ^ (52 - Np.exponent n d).
Proof.
  pose proof (exponent_lb Hn Hd) as L. pose proof exponent_small as S.
  set (e := Np.exponent n d) in *.
  destruct (Z_le_gt_dec 0 e) as [P | P].
  - rewrite shl_nonneg, shl_neg in L by lia.
    assert (E : 2 ^ 52 = 2 ^ e * 2 ^ (52 - e)).
    { rewrite <- Z.pow_add_r by lia. f_equal. lia. }
    assert (0 < 2 ^ (52 - e)) by (apply pow2_pos; lia).
    rewrite E. nia.
  - rewrite shl_neg, shl_nonneg in L by lia.
    assert (E : 2 ^ (52 - e) = 2 ^ (- e) * 2 ^ 52).
    { rewrite <- Z.pow_add_r by lia. f_equal. lia. }
    rewrite E. assert (0 < 2 ^ 52) by (apply pow2_pos; lia). nia.
Qed.

(** A bound below [2^53] on the grid of [2^(-k)] is on the rounding grid. *)
Lemma grid_coarser :
  n * 2 ^ k <= G * d -> k <= 52 - Np.exponent n d.
Proof.
  intros U. pose proof scaled_lb as S.
  set (e := Np.exponent n d) in *.
  destruct (Z_le_gt_dec k (52 - e)) as [P | P]; [exact P | exfalso].
  pose proof exponent_small as Se. fold e in Se.
  assert (E : 2 ^ k = 2 ^ (52 - e) * 2 ^ (k - (52 - e))).
  { rewrite <- Z.pow_add_r by lia. f_equal. lia. }
  assert (T : 2 <= 2 ^ (k - (52 - e))).
  { change 2 with (2 ^ 1) at 1. apply Z.pow_le_mono_r; lia. }
  assert (0 < 2 ^ (52 - e)) by (apply pow2_pos; lia).
  assert (F : 2 ^ 53 = 2 ^ 52 * 2) by reflexivity.
  assert (d * 2 ^ 52 * 2 ^ (k - (52 - e)) <= G * d).
  { rewrite E in U. nia. }
  nia.
Qed.

Lemma round_pos_upper :
  n * 2 ^ k <= G * d ->
  (Np.round_pos n d <= Qmake G (Z.to_pos (2 ^ k)))%Q.
Proof.
  intros U. unfold Np.round_pos.
  pose proof exponent_small as Se. pose proof (grid_coarser U) as Gc.
  set (s := Z.min (52 - Np.exponent n d) 1074).
  assert (Hs : 0 < s) by (unfold s; lia).
  assert (Hks : k <= s) by (unfold s; lia).
  destruct (round_at_pos Hn Hd Hs) as [m' [-> [[B1 B2] B3]]].
  unfold Qle. cbn [Qnum Qden].
  rewrite !Z2Pos.id by (apply pow2_pos; lia).
  assert (E : 2 ^ s = 2 ^ k * 2 ^ (s - k)).
  { rewrite <- Z.pow_add_r by lia. f_equal. lia. }
  assert (Pk : 0 < 2 ^ k) by (apply pow2_pos; lia).
  assert (Ps : 0 < 2 ^ (s - k)) by (apply pow2_pos; lia).
  set (I := G * 2 ^ (s - k)).
  assert (UI : n * 2 ^ s <= I * d) by (unfold I; rewrite E; nia).
  assert (M : m' <= I).
  { assert (Q1 : n * 2 ^ s / d <= I).
    { apply Z.div_le_upper_bound; [lia | nia]. }
    destruct (Z.eq_dec (n * 2 ^ s / d) I) as [Eq | Ne]; [| lia].
    rewrite B3; [lia |].
    pose proof (Z.div_mod (n * 2 ^ s) d ltac:(lia)) as DM.
    pose proof (Z.mod_pos_bound (n * 2 ^ s) d Hd). rewrite Eq in DM. nia. }
  rewrite E. unfold I in M. nia.
Qed.

Lemma round_pos_lower :
  G * d <= n * 2 ^ k ->
  (Qmake G (Z.to_pos (2 ^ k)) <= Np.round_pos n d)%Q.
Proof.
  intros L. unfold Np.round_pos.
  pose proof exponent_small as Se.
  set (s := Z.min (52 - Np.exponent n d) 1074).
  assert (Hs : 0 < s) by (unfold s; lia).
  destruct (round_at_pos Hn Hd Hs) as [m' [-> [[B1 B2] B3]]].
  unfold Qle. cbn [Qnum Qden].
  rewrite !Z2Pos.id by (apply pow2_pos; lia).
  assert (Pk : 0 < 2 ^ k) by (apply pow2_pos; lia).
  assert (Pss : 0 < 2 ^ s) by (apply pow2_pos; lia).
  destruct (Z_le_gt_dec k s) as [Hks | Hks].
  - assert (E : 2 ^ s = 2 ^ k * 2 ^ (s - k)).
    { rewrite <- Z.pow_add_r by lia. f_equal. lia. }
    assert (Ps : 0 < 2 ^ (s - k)) by (apply pow2_pos; lia).
    set (I := G * 2 ^ (s - k)).
    assert (LI : I * d <= n * 2 ^ s) by (unfold I; rewrite E; nia).
    assert (M : I <= n * 2 ^ s / d).
    { apply Z.div_le_lower_bound; [lia | nia]. }
    rewrite E. unfold I in M. nia.
  - assert (Es : s = 52 - Np.exponent n d) by (unfold s in *; lia).
    pose proof scaled_lb as S. rewrite <- Es in S.
    assert (M : 2 ^ 52 <= n * 2 ^ s / d).
    { apply Z.div_le_lower_bound; [lia | nia]. }
    assert (E : 2 ^ k = 2 ^ s * 2 ^ (k - s)).
    { rewrite <- Z.pow_add_r by lia. f_equal. lia. }
    assert (T : 2 <= 2 ^ (k - s)).
    { change 2 with (2 ^ 1) at 1. apply Z.pow_le_mono_r; lia. }
    assert (F : 2 ^ 53 = 2 ^ 52 * 2) by reflexivity.
    rewrite E. nia.
Qed.

End Sandwich.

Lemma rnd_upper (q : Q) (G k : Z) :
  (0 <= q)%Q -> (q < inject_Z (2 ^ 52))%Q ->
  0 <= G < 2 ^ 53 -> 0 <= k <= 1074 ->
  (q <= Qmake G (Z.to_pos (2 ^ k)))%Q ->
  (Np.rnd q <= Qmake G (Z.to_pos (2 ^ k)))%Q.
Proof.
  destruct q as [qn qd]. unfold Qle, Qlt, Np.rnd. cbn [Qnum Qden inject_Z].
  intros H0 H52 HG Hk U.
  assert (Pk : 0 < 2 ^ k) by (apply pow2_pos; lia).
  destruct qn as [| p | p]; [| | lia].
  - cbn [Qnum Qden]. lia.
  - rewrite Z2Pos.id in U by exact Pk.
    apply (@round_pos_upper (Z.pos p) (Z.pos qd) G k); try lia.
Qed.

Lemma rnd_lower (q : Q) (G k : Z) :
  (0 <= q)%Q -> (q < inject_Z (2 ^ 52))%Q ->
  0 <= G < 2 ^ 53 -> 0 <= k <= 1074 ->
  (Qmake G (Z.to_pos (2 ^ k)) <= q)%Q ->
  (Qmake G (Z.to_pos (2 ^ k)) <= Np.rnd q)%Q.
Proof.
  destruct q as [qn qd]. unfold Qle, Qlt, Np.rnd. cbn [Qnum Qden inject_Z].
  intros H0 H52 HG Hk L.
  assert (Pk : 0 < 2 ^ k) by (apply pow2_pos; lia).
  destruct qn as [| p | p]; [| | lia].
  - cbn [Qnum Qden]. rewrite Z2Pos.id in L by exact Pk. nia.
  - rewrite Z2Pos.id in L by exact Pk.
    apply (@round_pos_lower (Z.pos p) (Z.pos qd) G k); try lia.
Qed.

Lemma rnd_nonneg (q : Q) :
  (0 <= q)%Q -> (q < inject_Z (2 ^ 52))%Q -> (0 <= Np.rnd q)%Q.
Proof.
  intros H0 H52.
  assert (L : (Qmake 0 (Z.to_pos (2 ^ 0)) <= Np.rnd q)%Q).
  { apply rnd_lower; try assumption; lia. }
  exact L.
Qed.

(** Below [2^52] no operation overflows. *)
Lemma fl64_small (q : Q) :
  (0 <= q)%Q -> (q < inject_Z (2 ^ 52))%Q -> Np.fl64 q = Fin (Np.rnd q).
Proof.
  intros H0 H52. unfold Np.fl64. cbv zeta.
  assert (U : (Np.rnd q <= inject_Z (2 ^ 52))%Q).
  { apply (@rnd_upper q (2 ^ 52) 0); [exact H0 | exact H52 | lia | lia |].
    now apply Qlt_le_weak. }
  pose proof (rnd_nonneg H0 H52) as N.
  destruct (Qle_bool (inject_Z (2 ^ 1024)) (Np.rnd q)) eqn:A.
  { exfalso. apply Qle_bool_iff in A.
    pose proof (Qle_trans _ _ _ A U) as C. rewrite <- Zle_Qle in C.
    assert (2 ^ 52 < 2 ^ 1024) by (apply Z.pow_lt_mono_r; lia). lia. }
  destruct (Qle_bool (Np.rnd q) (inject_Z (- 2 ^ 1024))) eqn:B.
  { exfalso. apply Qle_bool_iff in B.
    pose proof (Qle_trans _ _ _ N B) as C.
    change 0%Q with (inject_Z 0) in C. rewrite <- Zle_Qle in C.
    assert (0 < 2 ^ 1024) by (apply pow2_pos; lia). lia. }
  reflexivity.
Qed.

(** Integers below [2^52] are binary64 values. *)
Lemma float_of_int_exact (c : Z) :
  0 <= c < 2 ^ 52 -> (Np.float_of_int c == inject_Z c)%Q.
Proof.
  intros H. unfold Np.float_of_int.
  assert (H0 : (0 <= inject_Z c)%Q)
    by (change 0%Q with (inject_Z 0); rewrite <- Zle_Qle; lia).
  assert (H52 : (inject_Z c < inject_Z (2 ^ 52))%Q)
    by (rewrite <- Zlt_Qlt; lia).
  assert (B : 0 <= c < 2 ^ 53).
  { split; [lia |]. assert (2 ^ 52 < 2 ^ 53) by (apply Z.pow_lt_mono_r; lia).
    lia. }
  apply Qle_antisym.
  - apply (@rnd_upper (inject_Z c) c 0);
      [exact H0 | exact H52 | lia | lia | apply Qle_refl].
  - apply (@rnd_lower (inject_Z c) c 0);
      [exact H0 | exact H52 | lia | lia | apply Qle_refl].
Qed.

Lemma quotient_value (c t : Z) :
  0 <= c <= t -> 0 < t -> t < 2 ^ 52 ->
  (Np.float_of_int c / Np.float_of_int t == Qmake c (Z.to_pos t))%Q.
Proof.
  intros Hc Ht Hb.
  rewrite (float_of_int_exact (c := c)), (float_of_int_exact (c := t)) by lia.
  rewrite (Qmake_Qdiv c (Z.to_pos t)). now rewrite Z2Pos.id by lia.
Qed.

Lemma ceil_div (a t : Z) :
  0 < t -> a <= (a + (t - 1)) / t * t < a + t.
Proof.
  intros Ht. pose proof (Z.div_mod (a + (t - 1)) t ltac:(lia)) as DM.
  pose proof (Z.mod_pos_bound (a + (t - 1)) t Ht). nia.
Qed.

(** Percentages of one year: with non-negative counts and a total below
    [2^50], a larger count has a strictly larger percentage. *)
Lemma percentage_strict (c1 c2 t : Z) :
  0 <= c1 -> c1 < c2 -> c2 <= t -> t < 2 ^ 50 ->
  xleb (xscale (truediv c2 t) 100) (xscale (truediv c1 t) 100) = false.
Proof.
  intros H1 H12 H2t Ht.
  assert (T0 : 0 < t) by lia.
  assert (Tz : (t =? 0) = false) by (apply Z.eqb_neq; lia).
  unfold truediv. rewrite Tz.
  set (x1 := (Np.float_of_int c1 / Np.float_of_int t)%Q).
  set (x2 := (Np.float_of_int c2 / Np.float_of_int t)%Q).
  assert (X1 : (x1 == Qmake c1 (Z.to_pos t))%Q)
    by (apply quotient_value; lia).
  assert (X2 : (x2 == Qmake c2 (Z.to_pos t))%Q)
    by (apply quotient_value; lia).
  assert (A1 : (0 <= x1)%Q /\ (x1 < inject_Z (2 ^ 52))%Q).
  { rewrite X1. unfold Qle, Qlt. cbn [Qnum Qden inject_Z].
    rewrite Z2Pos.id by lia. split; nia. }
  assert (A2 : (0 <= x2)%Q /\ (x2 < inject_Z (2 ^ 52))%Q).
  { rewrite X2. unfold Qle, Qlt. cbn [Qnum Qden inject_Z].
    rewrite Z2Pos.id by lia. split; nia. }
  destruct A1 as [A1 A1'], A2 as [A2 A2'].
  rewrite (fl64_small A1 A1'), (fl64_small A2 A2'). cbn [xscale].
  set (y1 := Np.rnd x1). set (y2 := Np.rnd x2).
  set (G := (c1 * 2 ^ 52 + (t - 1)) / t).
  pose proof (@ceil_div (c1 * 2 ^ 52) t T0) as CG. fold G in CG.
  assert (G0 : 0 <= G) by nia.
  assert (G2 : (G + 2) * t <= c2 * 2 ^ 52) by nia.
  assert (Gb : G + 2 <= 2 ^ 52) by nia.
  assert (Y1 : (y1 <= Qmake G (Z.to_pos (2 ^ 52)))%Q).
  { apply rnd_upper; [exact A1 | exact A1' | lia | lia |].
    rewrite X1. unfold Qle. cbn [Qnum Qden].
    rewrite !Z2Pos.id by lia. lia. }
  assert (Y2 : (Qmake (G + 2) (Z.to_pos (2 ^ 52)) <= y2)%Q).
  { apply rnd_lower; [exact A2 | exact A2' | lia | lia |].
    rewrite X2. unfold Qle. cbn [Qnum Qden].
    rewrite !Z2Pos.id by lia. lia. }
  assert (N1 : (0 <= y1)%Q) by now apply rnd_nonneg.
  assert (N2 : (0 <= y2)%Q) by now apply rnd_nonneg.
  assert (U2 : (y2 <= Qmake 1 (Z.to_pos (2 ^ 0)))%Q).
  { apply rnd_upper; [exact A2 | exact A2' | lia | lia |].
    rewrite X2. unfold Qle. cbn [Qnum Qden].
    rewrite !Z2Pos.id by lia. lia. }
  assert (U1 : (y1 <= Qmake 1 (Z.to_pos (2 ^ 0)))%Q).
  { apply rnd_upper; [exact A1 | exact A1' | lia | lia |].
    rewrite X1. unfold Qle. cbn [Qnum Qden].
    rewrite !Z2Pos.id by lia. lia. }
  assert (P1 : (0 <= y1 * 100)%Q /\ (y1 * 100 < inject_Z (2 ^ 52))%Q).
  { split.
    - apply Qmult_le_0_compat; [exact N1 | discriminate].
    - apply Qle_lt_trans with (Qmake 1 (Z.to_pos (2 ^ 0)) * 100)%Q.
      + apply Qmult_le_compat_r; [exact U1 | discriminate].
      + reflexivity. }
  assert (P2 : (0 <= y2 * 100)%Q /\ (y2 * 100 < inject_Z (2 ^ 52))%Q).
  { split.
    - apply Qmult_le_0_compat; [exact N2 | discriminate].
    - apply Qle_lt_trans with (Qmake 1 (Z.to_pos (2 ^ 0)) * 100)%Q.
      + apply Qmult_le_compat_r; [exact U2 | discriminate].
      + reflexivity. }
  destruct P1 as [P1 P1'], P2 as [P2 P2'].
  rewrite (fl64_small P1 P1'), (fl64_small P2 P2'). cbn [xleb].
  set (H := (100 * G + (64 - 1)) / 64).
  pose proof (@ceil_div (100 * G) 64 ltac:(lia)) as CH. fold H in CH.
  assert (Z1 : (Np.rnd (y1 * 100) <= Qmake H (Z.to_pos (2 ^ 46)))%Q).
  { apply rnd_upper; [exact P1 | exact P1' | lia | lia |].
    apply Qle_trans with (Qmake G (Z.to_pos (2 ^ 52)) * 100)%Q.
    - apply Qmult_le_compat_r; [exact Y1 | discriminate].
    - unfold Qle, Qmult. cbn [Qnum Qden].
      rewrite Pos2Z.inj_mul, !Z2Pos.id by lia. lia. }
  assert (Z2 : (Qmake (H + 1) (Z.to_pos (2 ^ 46)) <= Np.rnd (y2 * 100))%Q).
  { apply rnd_lower; [exact P2 | exact P2' | lia | lia |].
    apply Qle_trans with (Qmake (G + 2) (Z.to_pos (2 ^ 52)) * 100)%Q.
    - unfold Qle, Qmult. cbn [Qnum Qden].
      rewrite Pos2Z.inj_mul, !Z2Pos.id by lia. lia.
    - apply Qmult_le_compat_r; [exact Y2 | discriminate]. }
  destruct (Qle_bool (Np.rnd (y2 * 100)) (Np.rnd (y1 * 100))) eqn:C;
    [exfalso | reflexivity].
  apply Qle_bool_iff in C.
  pose proof (Qle_trans _ _ _ Z2 (Qle_trans _ _ _ C Z1)) as F.
  unfold Qle in F. cbn [Qnum Qden] in F. rewrite !Z2Pos.id in F by lia. lia.
Qed.

(** ** Counts and percentages of a modest year *)

Lemma wrap64_small (z : Z) : - 2 ^ 63 <= z < 2 ^ 63 -> Np.wrap64 z = z.
Proof.
  intros H. unfold Np.wrap64. rewrite Z.mod_small; lia.
Qed.

Lemma sum_nonneg (l : list Z) : (forall x, In x l -> 0 <= x) -> 0 <= Pd.sum l.
Proof.
  induction l as [| x l IH]; intros H; [cbn; lia |].
  rewrite sum_cons. pose proof (H x (or_introl eq_refl)).
  pose proof (IH (fun y Hy => H y (or_intror Hy))). lia.
Qed.

Lemma exact_count_bounds (df : DataFrame) (year : Z) (name : string) :
  (forall r, In r df -> r_year r = year -> 0 <= r_count r) ->
  0 <= exact_count df year name <= exact_total df year.
Proof.
  unfold exact_count, exact_total.
  induction df as [| r df IH]; intros H; [cbn; lia |].
  assert (IH' := IH (fun x Hx => H x (or_intror Hx))).
  cbn [filter]. destruct (r_year r =? year) eqn:Y; cbn [andb]; [| exact IH'].
  assert (0 <= r_count r) by (apply H; [now left | lia]).
  destruct (String.eqb (r_name r) name); cbn [map]; rewrite ?sum_cons; lia.
Qed.

Lemma modest_counts (df : DataFrame) (year : Z) (name : string) :
  modest df year ->
  name_count df year name = exact_count df year name
  /\ year_total df year = exact_total df year
  /\ 0 <= exact_count df year name <= exact_total df year
  /\ exact_total df year < 2 ^ 50.
Proof.
  intros [Hc Ht]. pose proof (@exact_count_bounds df year name Hc) as B.
  unfold name_count, year_total, Pd.sum64.
  fold (exact_count df year name). fold (exact_total df year).
  rewrite !wrap64_small by lia. auto.
Qed.

(** In a modest year the order of the percentages is the order of the
    summed counts. *)
Lemma share_le_count (df : DataFrame) (year : Z) (a b : string) :
  modest df year ->
  xleb (share df year b) (share df year a) = true ->
  exact_count df year b <= exact_count df year a.
Proof.
  intros Hm Hx.
  destruct (@modest_counts df year a Hm) as [Ea [Et [Ba Bt]]].
  destruct (@modest_counts df year b Hm) as [Eb [_ [Bb _]]].
  destruct (Z_le_gt_dec (exact_count df year b) (exact_count df year a))
    as [L | G]; [exact L | exfalso].
  unfold share in Hx. rewrite Ea, Eb, Et in Hx.
  rewrite percentage_strict in Hx; [discriminate | lia | lia | lia | lia].
Qed.

Lemma share_lt_count (df : DataFrame) (year : Z) (a b : string) :
  modest df year ->
  exact_count df year b < exact_count df year a ->
  xleb (share df year a) (share df year b) = false.
Proof.
  intros Hm Hlt.
  destruct (xleb (share df year a) (share df year b)) eqn:E; [| reflexivity].
  pose proof (@share_le_count df year b a Hm E). lia.
Qed.

(** ** Dictionaries *)

Section Dict.
Variable V : Type.
Implicit Types (d : Py.dict V) (k : string) (v : V).

Lemma get_None d k : Py.get d k = None <-> ~ In k (Py.keys d).
Proof.
  unfold Py.keys. induction d as [| [k0 v0] d IH]; cbn.
  - tauto.
  - destruct (String.eqb_spec k k0) as [-> | N].
    + split; [discriminate | intros H; exfalso; apply H; now left].
    + rewrite IH. split; [intros H [E | I]; [congruence | tauto] | tauto].
Qed.

Lemma mem_keys d k :
  Py.mem k (Py.keys d) = match Py.get d k with Some _ => true | None => false end.
Proof.
  destruct (Py.get d k) eqn:E.
  - apply mem_In. destruct (in_dec string_dec k (Py.keys d)) as [I | I];
      [assumption |]. apply get_None in I. congruence.
  - apply mem_false. now apply get_None.
Qed.

Lemma get_In d k v :
  NoDup (Py.keys d) -> (In (k, v) d <-> Py.get d k = Some v).
Proof.
  unfold Py.keys. induction d as [| [k0 v0] d IH]; cbn; intros Hn.
  - split; [contradiction | discriminate].
  - inversion Hn as [| ? ? Hk Hd]; subst.
    destruct (String.eqb_spec k k0) as [-> | N].
    + split.
      * intros [E | I]; [congruence |].
        exfalso. apply Hk. apply in_map_iff. now exists (k0, v).
      * intros E. left. congruence.
    + rewrite <- (IH Hd). split; [intros [E | I]; congruence | tauto].
Qed.

Lemma get_setitem d k v k' :
  Py.get (Py.setitem d k v) k'
  = if String.eqb k' k then Some v else Py.get d k'.
Proof.
  induction d as [| [k0 v0] d IH]; cbn.
  - now destruct (String.eqb k' k).
  - destruct (String.eqb_spec k k0) as [-> | N]; cbn.
    + now destruct (String.eqb k' k0).
    + rewrite IH. destruct (String.eqb_spec k' k0) as [-> | N'];
        [| reflexivity].
      destruct (String.eqb_spec k0 k); congruence.
Qed.

Lemma get_adjust (f : V -> V) d k k' :
  Py.get (Py.adjust f d k) k'
  = if String.eqb k' k then option_map f (Py.get d k) else Py.get d k'.
Proof.
  induction d as [| [k0 v0] d IH]; cbn.
  - now destruct (String.eqb k' k).
  - destruct (String.eqb_spec k k0) as [-> | N]; cbn.
    + now destruct (String.eqb k' k0).
    + rewrite IH. destruct (String.eqb_spec k' k0) as [-> | N'];
        [| reflexivity].
      destruct (String.eqb_spec k0 k); congruence.
Qed.

Lemma keys_adjust (f : V -> V) d k : Py.keys (Py.adjust f d k) = Py.keys d.
Proof.
  unfold Py.keys. induction d as [| [k0 v0] d IH]; cbn; [reflexivity |].
  destruct (String.eqb k k0); cbn; [reflexivity | now rewrite IH].
Qed.

Lemma keys_setitem_new d k v :
  ~ In k (Py.keys d) -> Py.keys (Py.setitem d k v) = Py.keys d ++ [k].
Proof.
  unfold Py.keys. induction d as [| [k0 v0] d IH]; cbn; intros H;
    [reflexivity |].
  destruct (String.eqb_spec k k0) as [-> | N]; [tauto |].
  cbn. rewrite IH; tauto.
Qed.

(** The pattern of the accumulating loops: create the entry of [k] with
    [init], or update the entry that is there with [f]. *)
Lemma get_upsert (init : V) (f : V -> V) d k k' :
  Py.get (if negb (Py.mem k (Py.keys d))
          then Py.setitem d k init
          else Py.adjust f d k) k'
  = if String.eqb k' k
    then Some (match Py.get d k with Some v => f v | None => init end)
    else Py.get d k'.
Proof.
  rewrite mem_keys. destruct (Py.get d k) eqn:E; cbn.
  - now rewrite get_adjust, E.
  - now rewrite get_setitem.
Qed.

Lemma NoDup_upsert (init : V) (f : V -> V) d k :
  NoDup (Py.keys d) ->
  NoDup (Py.keys (if negb (Py.mem k (Py.keys d))
                  then Py.setitem d k init
                  else Py.adjust f d k)).
Proof.
  intros H. destruct (Py.mem k (Py.keys d)) eqn:E; cbn [negb].
  - now rewrite keys_adjust.
  - apply mem_false in E. rewrite keys_setitem_new by assumption.
    apply NoDup_app; [assumption | repeat constructor; tauto |].
    intros x Hx [<- | []]. contradiction.
Qed.

(** A dictionary in which no key finds a value is empty. *)
Lemma dict_nil d : (forall k, Py.get d k = None) -> d = [].
Proof.
  destruct d as [| [k0 v0] d]; [reflexivity |].
  intros H. specialize (H k0). cbn in H.
  now rewrite String.eqb_refl in H.
Qed.

End Dict.

(** ** Emergence tracker *)

Lemma get_note_years (y : Z) (inter : list string)
  (becomed : Py.dict (list Z)) (name : string) :
  NoDup inter ->
  Py.get (fold_left (note_year y) inter becomed) name
  = if Py.mem name inter
    then Some (match Py.get becomed name with
               | Some years => years ++ [y]
               | None => [y]
               end)
    else Py.get becomed name.
Proof.
  intros Hn. revert becomed.
  induction Hn as [| x inter Hx Hn IH]; intros becomed; [reflexivity |].
  cbn [fold_left]. rewrite IH. unfold note_year.
  rewrite !get_upsert. unfold Py.mem. cbn [existsb]. fold (Py.mem name inter).
  destruct (String.eqb_spec name x) as [-> | N]; cbn [orb].
  - apply mem_false in Hx. now rewrite Hx.
  - reflexivity.
Qed.

Lemma NoDup_note_years (y : Z) (inter : list string)
  (becomed : Py.dict (list Z)) :
  NoDup (Py.keys becomed) ->
  NoDup (Py.keys (fold_left (note_year y) inter becomed)).
Proof.
  revert becomed. induction inter as [| x inter IH]; intros becomed H;
    [assumption |].
  cbn [fold_left]. apply IH. unfold note_year. now apply NoDup_upsert.
Qed.

Lemma mem_intersection (a b : Py.pyset) (x : string) :
  Py.mem x (Py.intersection a b) = Py.mem x a && Py.mem x b.
Proof.
  apply eq_true_iff_eq.
  now rewrite andb_true_iff, !mem_In, In_intersection.
Qed.

(** The state of the outer loop of [becomed_popular] after the years [ys]. *)
Lemma get_becomed_loop (df : DataFrame) (new : Py.pyset) (ys : list Z)
  (name : string) :
  NoDup new ->
  Py.get
    (fold_left
       (fun becomed y =>
          fold_left (note_year y)
                    (Py.intersection new (popular_names df y)) becomed)
       ys [])
    name
  = if Py.mem name new
    then match filter (fun y => Py.mem name (popular_names df y)) ys with
         | [] => None
         | years => Some years
         end
    else None.
Proof.
  intros Hn. induction ys as [| y ys IH] using rev_ind.
  - cbn. now destruct (Py.mem name new).
  - rewrite fold_left_app. cbn [fold_left].
    rewrite get_note_years by now apply NoDup_intersection.
    rewrite IH, mem_intersection, filter_app. cbn [filter].
    destruct (Py.mem name new); cbn [andb]; [| reflexivity].
    destruct (Py.mem name (popular_names df y)).
    + now destruct (filter _ ys).
    + rewrite app_nil_r. reflexivity.
Qed.

Lemma get_becomed_popular (df : DataFrame) (year : Z) (name : string) :
  Py.get (becomed_popular df year) name
  = if Py.mem name (new_names df year)
    then match popular_years df year name with
         | [] => None
         | years => Some years
         end
    else None.
Proof.
  unfold becomed_popular, popular_years.
  apply get_becomed_loop, NoDup_new_names.
Qed.

Lemma NoDup_becomed_popular (df : DataFrame) (year : Z) :
  NoDup (Py.keys (becomed_popular df year)).
Proof.
  unfold becomed_popular.
  generalize (Py.range year (year + 10)). intros ys.
  induction ys as [| y ys IH] using rev_ind; [constructor |].
  rewrite fold_left_app. cbn [fold_left]. now apply NoDup_note_years.
Qed.

Lemma In_popular_years (df : DataFrame) (year : Z) (name : string) (y : Z) :
  In y (popular_years df year name)
  <-> year <= y <= year + 9 /\ In name (popular_names df y).
Proof.
  unfold popular_years. rewrite filter_In, In_range, mem_In.
  split; intros [H1 H2]; (split; [lia | assumption]).
Qed.

Lemma sorted_range (lo hi : Z) : StronglySorted Z.lt (Py.range lo hi).
Proof.
  remember (Z.to_nat (hi - lo)) as n eqn:E. revert lo E.
  induction n as [| n IH]; intros lo E.
  - rewrite range_empty by lia. constructor.
  - rewrite range_cons by lia. constructor; [apply IH; lia |].
    apply Forall_forall. intros y Hy. apply In_range in Hy. lia.
Qed.

Lemma sorted_filter {A} (R : A -> A -> Prop) (p : A -> bool) (l : list A) :
  StronglySorted R l -> StronglySorted R (filter p l).
Proof.
  induction 1 as [| x l Hl IH Hx]; cbn; [constructor |].
  destruct (p x); [| assumption].
  constructor; [assumption |].
  apply Forall_forall. intros y Hy. apply filter_In in Hy.
  rewrite Forall_forall in Hx. now apply Hx.
Qed.

Lemma sorted_popular_years (df : DataFrame) (year : Z) (name : string) :
  StronglySorted Z.lt (popular_years df year name).
Proof. apply sorted_filter, sorted_range. Qed.

(** The items of the emergence map. *)
Lemma In_becomed_popular (df : DataFrame) (year : Z) (name : string)
  (years : list Z) :
  In (name, years) (becomed_popular df year)
  <-> In name (new_names df year)
      /\ years = popular_years df year name /\ years <> [].
Proof.
  rewrite (get_In _ name years (NoDup_becomed_popular df year)),
    get_becomed_popular.
  destruct (Py.mem name (new_names df year)) eqn:E.
  - apply mem_In in E. destruct (popular_years df year name) as [| y l].
    + split; [discriminate | intros [_ [-> C]]; congruence].
    + split; [intros [= <-]; repeat split; [assumption | discriminate]
             | intros [_ [-> _]]; reflexivity].
  - apply mem_false in E. split; [discriminate | tauto].
Qed.

(** ** Trend setters *)

Lemma fold_left_app_flat_map {A B} (f : A -> list B) (l : list A)
  (init : list B) :
  fold_left (fun acc x => acc ++ f x) l init = init ++ flat_map f l.
Proof.
  revert init. induction l as [| x l IH]; intros init; cbn.
  - now rewrite app_nil_r.
  - now rewrite IH, app_assoc.
Qed.

Lemma trend_setter_eq (df : DataFrame) (year : Z) :
  trend_setter df year
  = flat_map (states_with_name df year) (Py.keys (becomed_popular df year)).
Proof. unfold trend_setter. now rewrite fold_left_app_flat_map. Qed.

(** ** Counting regions *)

Lemma occurrences_cons (x s : string) (l : list string) :
  occurrences (x :: l) s
  = (if String.eqb s x then 1 else 0) + occurrences l s.
Proof.
  unfold occurrences. cbn [count_occ].
  destruct (string_dec x s) as [-> | N].
  - rewrite String.eqb_refl. lia.
  - destruct (String.eqb_spec s x); [congruence | lia].
Qed.

Lemma occurrences_nonneg (l : list string) (s : string) : 0 <= occurrences l s.
Proof. unfold occurrences. lia. Qed.

Lemma occurrences_pos (l : list string) (s : string) :
  0 < occurrences l s <-> In s l.
Proof.
  unfold occurrences. rewrite (count_occ_In string_dec). lia.
Qed.

Lemma get_tally_loop (l : list string) (states : Py.dict Z) (s : string) :
  Py.get (fold_left tally l states) s
  = if occurrences l s =? 0
    then Py.get states s
    else Some (match Py.get states s with Some n => n | None => 0 end
               + occurrences l s).
Proof.
  revert states. induction l as [| x l IH]; intros states; [reflexivity |].
  cbn [fold_left]. rewrite IH, occurrences_cons. unfold tally.
  rewrite !get_upsert.
  pose proof (occurrences_nonneg l s) as Hc.
  destruct (String.eqb_spec s x) as [-> | N].
  - destruct (occurrences l x =? 0) eqn:E1;
      destruct (1 + occurrences l x =? 0) eqn:E2; try lia;
      destruct (Py.get states x); f_equal; lia.
  - cbn [Z.add]. reflexivity.
Qed.

Lemma NoDup_tally_loop (l : list string) (states : Py.dict Z) :
  NoDup (Py.keys states) -> NoDup (Py.keys (fold_left tally l states)).
Proof.
  revert states. induction l as [| x l IH]; intros states H; [assumption |].
  cbn [fold_left]. apply IH. unfold tally. now apply NoDup_upsert.
Qed.

(** The guard [if len(l) > 0] changes nothing. *)
Lemma guarded_tally (l : list string) (states : Py.dict Z) :
  (if (0 <? List.length l)%nat then fold_left tally l states else states)
  = fold_left tally l states.
Proof. now destruct l. Qed.

Lemma sum_occurrences_nonneg (f : Z -> list string) (ys : list Z)
  (s : string) :
  0 <= Pd.sum (map (fun y => occurrences (f y) s) ys).
Proof.
  induction ys as [| y ys IH]; cbn [map]; [reflexivity |].
  rewrite sum_cons. pose proof (occurrences_nonneg (f y) s). lia.
Qed.

(** The state of the counting loop after the years [ys]. *)
Lemma get_period_loop (f : Z -> list string) (ys : list Z) (s : string) :
  Py.get
    (fold_left
       (fun states y =>
          if (0 <? List.length (f y))%nat
          then fold_left tally (f y) states
          else states)
       ys [])
    s
  = let n := Pd.sum (map (fun y => occurrences (f y) s) ys) in
    if 0 <? n then Some n else None.
Proof.
  induction ys as [| y ys IH] using rev_ind; [reflexivity |].
  rewrite fold_left_app. cbn [fold_left]. rewrite guarded_tally.
  rewrite get_tally_loop, IH, map_app, sum_app. cbn [map].
  rewrite sum_cons. cbn [Pd.sum fold_right]. cbv zeta.
  pose proof (sum_occurrences_nonneg f ys s) as Hn.
  pose proof (occurrences_nonneg (f y) s) as Hc.
  set (n := Pd.sum (map (fun y0 => occurrences (f y0) s) ys)) in *.
  set (c := occurrences (f y) s) in *.
  destruct (c =? 0) eqn:E1; destruct (0 <? n) eqn:E2;
    destruct (0 <? n + (c + 0)) eqn:E3; try lia; f_equal; lia.
Qed.

Lemma NoDup_period_loop (f : Z -> list string) (ys : list Z) :
  NoDup
    (Py.keys
       (fold_left
          (fun states y =>
             if (0 <? List.length (f y))%nat
             then fold_left tally (f y) states
             else states)
          ys [])).
Proof.
  induction ys as [| y ys IH] using rev_ind; [constructor |].
  rewrite fold_left_app. cbn [fold_left]. rewrite guarded_tally.
  now apply NoDup_tally_loop.
Qed.

Lemma get_trend_setter_period (df : DataFrame) (start end_ : Z) (s : string) :
  Py.get (trend_setter_period df start end_) s
  = let n := occurrences_over (trend_setter df) start end_ s in
    if 0 <? n then Some n else None.
Proof. unfold trend_setter_period. apply get_period_loop. Qed.

(** ** Late adopters *)

Lemma fold_min (l : list Z) (x : Z) :
  fold_left Z.min l x = fold_right Z.min x l.
Proof.
  revert x. induction l as [| y l IH]; intros x; cbn; [reflexivity |].
  rewrite IH. clear IH. revert x y.
  induction l as [| z l IH]; intros x y; cbn; [apply Z.min_comm |].
  rewrite IH. lia.
Qed.

Lemma min_least (years : list Z) :
  years <> [] -> Py.min years = Some (least years).
Proof.
  destruct years as [| y rest]; [congruence |].
  intros _. unfold Py.min, least. now rewrite fold_min.
Qed.

Lemma least_In (years : list Z) : years <> [] -> In (least years) years.
Proof.
  destruct years as [| y rest]; [congruence |]. intros _. unfold least.
  induction rest as [| z rest IH]; cbn; [now left |].
  destruct (Z.min_spec z (fold_right Z.min y rest)) as [[_ E] | [_ E]];
    rewrite E.
  - right. now left.
  - cbn in IH. destruct IH as [IH | IH]; [now left | right; now right].
Qed.

Lemma first_popular_eq (names : Py.dict (list Z)) :
  (forall item, In item names -> snd item <> []) ->
  first_popular names
  = Some (map (fun item => (fst item, least (snd item) + 1)) names).
Proof.
  induction names as [| [name years] rest IH]; intros H; [reflexivity |].
  cbn [first_popular map fst snd].
  assert (E : Py.min years = Some (least years))
    by (apply min_least; exact (H (name, years) (or_introl eq_refl))).
  rewrite E.
  rewrite IH by (intros item Hi; apply H; now right). reflexivity.
Qed.

Lemma late_states_eq (df : DataFrame) (year : Z) (name : string)
  (years : list Z) :
  late_states df year name (least years + 1) = late_only df year name years.
Proof.
  unfold late_states, late_only, regions_over.
  now rewrite !fold_left_app_flat_map.
Qed.

Lemma becomed_popular_nonempty (df : DataFrame) (year : Z)
  (item : string * list Z) :
  In item (becomed_popular df year) -> snd item <> [].
Proof.
  destruct item as [name years]. intros H.
  now apply In_becomed_popular in H.
Qed.

Lemma late_adopters_eq (df : DataFrame) (year : Z) :
  late_adopters df year = Some (late_adopters_spec df year).
Proof.
  unfold late_adopters, late_adopters_spec.
  rewrite (first_popular_eq _ (@becomed_popular_nonempty df year)).
  f_equal. rewrite fold_left_app_flat_map. cbn [app].
  rewrite flat_map_concat_map, map_map, <- flat_map_concat_map.
  apply flat_map_ext. intros [name years]. apply late_states_eq.
Qed.

Lemma least_bounds (df : DataFrame) (year : Z) (name : string)
  (years : list Z) :
  In (name, years) (becomed_popular df year) ->
  year <= least years <= year + 9.
Proof.
  intros H. apply In_becomed_popular in H. destruct H as [_ [E N]].
  pose proof (least_In N) as I. rewrite E in I at 2.
  now apply In_popular_years in I.
Qed.

Lemma late_adopters_period_eq (df : DataFrame) (start end_ : Z) :
  late_adopters_period df start end_
  = Some (fold_left
            (fun states year =>
               if (0 <? List.length (late_adopters_spec df year))%nat
               then fold_left tally (late_adopters_spec df year) states
               else states)
            (Py.range start (end_ + 1)) []).
Proof.
  unfold late_adopters_period.
  generalize (Py.range start (end_ + 1)). intros ys.
  induction ys as [| y ys IH] using rev_ind; [reflexivity |].
  rewrite !fold_left_app. cbn [fold_left].
  now rewrite IH, late_adopters_eq.
Qed.

(** ** The programs compute the functions *)

Section Programs.
Variable df : loc.
Variable rows : DataFrame.

Lemma returns_becomed_popular (year : Z) :
  returns df rows (Obj.becomed_popular df year) (becomed_popular rows year).
Proof.
  unfold Obj.becomed_popular, becomed_popular.
  eapply returns_bind; [apply returns_new_names |].
  apply returns_foldM with
    (g := fun becomed y =>
            fold_left (note_year y)
                      (Py.intersection (new_names rows year)
                                       (popular_names rows y))
                      becomed).
  intros becomed y.
  eapply returns_bind; [apply returns_popular_names | apply returns_ret].
Qed.

Lemma returns_trend_setter (year : Z) :
  returns df rows (Obj.trend_setter df year) (trend_setter rows year).
Proof.
  unfold Obj.trend_setter, trend_setter.
  eapply returns_bind; [apply returns_becomed_popular |].
  apply returns_foldM with
    (g := fun states name => states ++ states_with_name rows year name).
  intros states name.
  eapply returns_bind; [apply returns_states_with_name | apply returns_ret].
Qed.

Lemma returns_trend_setter_period (start end_ : Z) :
  returns df rows (Obj.trend_setter_period df start end_)
          (trend_setter_period rows start end_).
Proof.
  unfold Obj.trend_setter_period, trend_setter_period.
  apply returns_foldM with
    (g := fun states year =>
            if (0 <? List.length (trend_setter rows year))%nat
            then fold_left tally (trend_setter rows year) states
            else states).
  intros states year.
  eapply returns_bind; [apply returns_trend_setter |].
  destruct (0 <? List.length (trend_setter rows year))%nat;
    apply returns_ret.
Qed.

Lemma returns_late_states (year : Z) (name : string) (y : Z) :
  returns df rows (Obj.late_states df year name y)
          (late_states rows year name y).
Proof.
  unfold Obj.late_states, late_states.
  eapply returns_bind.
  { apply returns_foldM with
      (g := fun early p => early ++ states_with_name rows p name).
    intros early p.
    eapply returns_bind; [apply returns_states_with_name | apply returns_ret]. }
  eapply returns_bind.
  { apply returns_foldM with
      (g := fun late q => late ++ states_with_name rows q name).
    intros late q.
    eapply returns_bind; [apply returns_states_with_name | apply returns_ret]. }
  apply returns_ret.
Qed.

Lemma returns_late_adopters (year : Z) :
  returns df rows (Obj.late_adopters df year) (late_adopters_spec rows year).
Proof.
  pose proof (late_adopters_eq rows year) as E.
  unfold Obj.late_adopters, late_adopters in *.
  eapply returns_bind; [apply returns_becomed_popular |].
  destruct (first_popular (becomed_popular rows year)) as [names |];
    [| discriminate].
  injection E as <-.
  apply returns_foldM with
    (g := fun states item =>
            states ++ late_states rows year (fst item) (snd item)).
  intros states item.
  eapply returns_bind; [apply returns_late_states | apply returns_ret].
Qed.

Lemma returns_late_adopters_period (start end_ : Z) :
  forall v, late_adopters_period rows start end_ = Some v ->
  returns df rows (Obj.late_adopters_period df start end_) v.
Proof.
  intros v E. rewrite late_adopters_period_eq in E. injection E as <-.
  unfold Obj.late_adopters_period.
  apply returns_foldM with
    (g := fun states year =>
            if (0 <? List.length (late_adopters_spec rows year))%nat
            then fold_left tally (late_adopters_spec rows year) states
            else states).
  intros states year.
  eapply returns_bind; [apply returns_late_adopters |].
  destruct (0 <? List.length (late_adopters_spec rows year))%nat;
    apply returns_ret.
Qed.

End Programs.

Lemma returns_unchanged {A} (df : loc) (m : M A) :
  (forall rows, exists v, returns df rows m v) -> leaves_unchanged df m.
Proof.
  intros H s rows Hs. destruct (H rows) as [v Hv].
  destruct (Hv s Hs) as [fresh E].
  exists v, (s ++ fresh). split; [exact E |].
  split; [now apply holds_app |].
  intros l o Hl. rewrite nth_error_app1; [assumption |].
  apply nth_error_Some. congruence.
Qed.

(** * The claims *)

(** ** Novelty detector *)

(** Claim C2.  [new_names df year] is the set of the names present in [year]
    minus the names present in some year of [[year-11, year-1]]: it has no
    repetition, a name belongs to it exactly when it is present in [year]
    and in no year of the window; hence it is disjoint from the names of
    the window, included in the names of [year], and empty when every name
    of [year] occurs in the window. *)
Theorem new_names_spec (df : DataFrame) (year : Z) :
  NoDup (new_names df year)
  /\ (forall name,
        In name (new_names df year)
        <-> present df year name
            /\ ~ present_within df (year - 11) (year - 1) name)
  /\ (forall name,
        In name (new_names df year) ->
        ~ present_within df (year - 11) (year - 1) name)
  /\ (forall name, In name (new_names df year) -> present df year name)
  /\ ((forall name,
         present df year name ->
         present_within df (year - 11) (year - 1) name) ->
      new_names df year = []).
Proof.
  split; [apply NoDup_new_names |].
  split; [apply In_new_names |].
  split; [intros name H; now apply In_new_names in H |].
  split; [intros name H; now apply In_new_names in H |].
  intros H. apply nil_of_no_member. intros name Hn.
  apply In_new_names in Hn. destruct Hn as [Hp Hw]. auto.
Qed.

Lemma new_names_spec_witness :
  new_names Sample.frame 2010
  = ["Zara"; "Cy"; "Dee"; "Eli"; "Fay"; "Gus"; "Hal"; "Ida"]%string
  /\ (In "Zara"%string (new_names Sample.frame 2010) ->
      ~ present_within Sample.frame (2010 - 11) (2010 - 1) "Zara"%string).
Proof.
  split; [vm_compute; reflexivity |].
  destruct (new_names_spec Sample.frame 2010) as [_ [_ [H _]]].
  exact (H "Zara"%string).
Defined.

(** ** Geographic locator *)

(** Claim C8.  [states_with_name df year name] is the set of the distinct
    region codes of the records whose year is [year] and whose name is
    [name]; it is empty when no record matches, and the call returns it
    without raising. *)
Theorem states_with_name_spec (df : DataFrame) (year : Z) (name : string) :
  NoDup (states_with_name df year name)
  /\ (forall state,
        In state (states_with_name df year name)
        <-> reports df year name state)
  /\ ((forall r, In r df -> ~ (r_year r = year /\ r_name r = name)) ->
      states_with_name df year name = [])
  /\ (forall s l,
        holds s l df ->
        exists s',
          Obj.states_with_name l year name s
          = Return (states_with_name df year name) s').
Proof.
  split; [apply NoDup_set |].
  split; [apply In_states_with_name |].
  split.
  - intros H. apply nil_of_no_member. intros state Hs.
    apply In_states_with_name in Hs. destruct Hs as [r [Hr [Hy [Hn _]]]].
    now apply (H r).
  - intros s l Hs.
    destruct (returns_states_with_name year name Hs) as [fresh E].
    now exists (s ++ fresh).
Qed.

Lemma states_with_name_spec_witness :
  states_with_name Sample.frame 2012 "Zara" = ["TX"; "CA"]%string
  /\ states_with_name Sample.frame 1990 "Zara" = []
  /\ exists s',
       Obj.states_with_name 0%nat 1990 "Zara" [ODataFrame Sample.frame]
       = Return (states_with_name Sample.frame 1990 "Zara") s'.
Proof.
  split; [vm_compute; reflexivity |].
  destruct (states_with_name_spec Sample.frame 1990 "Zara")
    as [_ [_ [Hnil Hrun]]].
  split.
  - apply Hnil. intros r Hr [Hy _]. revert Hy.
    repeat (destruct Hr as [<- | Hr]; [discriminate |]). contradiction.
  - apply (Hrun [ODataFrame Sample.frame] 0%nat). reflexivity.
Defined.

(** ** Popularity ranker *)

Lemma any_ranking_facts (df : DataFrame) (year : Z)
  (sorted : list (string * Z * xreal)) :
  Permutation sorted (shares df year) ->
  List.length
    (Pd.index (firstn (Pd.ceil_tenth (distinct_name_count df year)) sorted))
  = Pd.ceil_tenth (distinct_name_count df year)
  /\ NoDup
       (Pd.index (firstn (Pd.ceil_tenth (distinct_name_count df year)) sorted))
  /\ forall a,
       In a (Pd.index
               (firstn (Pd.ceil_tenth (distinct_name_count df year)) sorted)) ->
       present df year a.
Proof.
  intros Hp. unfold Pd.index. split.
  { rewrite length_map, length_firstn, (Permutation_length Hp), length_shares.
    pose proof (ceil_tenth_le (distinct_name_count df year)). lia. }
  split.
  { rewrite <- firstn_map. apply NoDup_firstn.
    apply (Permutation_NoDup (Permutation_map _ (Permutation_sym Hp))).
    fold (Pd.index (shares df year)). rewrite index_shares.
    apply NoDup_sorted_names. }
  intros a Ha. rewrite <- firstn_map in Ha. apply In_firstn in Ha.
  apply (Permutation_in _ (Permutation_map _ Hp)) in Ha.
  fold (Pd.index (shares df year)) in Ha. rewrite index_shares in Ha.
  apply In_sorted_names in Ha. unfold distinct_names in Ha.
  now apply set_In, present_iff in Ha.
Qed.

(** Claim C3.  [popular_names df year] has exactly [ceil (n / 10)] names,
    without repetition, [n] being the number of distinct names of [year];
    they are names of the year, and every name of the year that is left
    out has a percentage no larger than the percentage of any name taken.
    The percentage of a name is the value the code sorts by: its counts
    summed over the records of the year, divided by the total of the
    year and multiplied by 100, in the int64 and binary64 arithmetic of
    pandas.  When the counts of the year are non-negative and add up to
    less than [2^50], this is the order of the summed counts themselves:
    a name left out has a summed count no larger than any name taken.
    All this holds of the first [ceil (n / 10)] rows of every descending
    arrangement of the year's table, however equal percentages are
    ordered.  With no name in the year the result is empty. *)
Theorem popular_names_spec (df : DataFrame) (year : Z) :
  List.length (popular_names df year)
  = Pd.ceil_tenth (distinct_name_count df year)
  /\ (List.length (popular_names df year)
      <= Pd.ceil_tenth (distinct_name_count df year))%nat
  /\ (distinct_name_count df year <= 10 * List.length (popular_names df year)
      /\ 10 * List.length (popular_names df year)
         < distinct_name_count df year + 10)%nat
  /\ NoDup (popular_names df year)
  /\ (forall a, In a (popular_names df year) -> present df year a)
  /\ (forall a b,
        In a (popular_names df year) -> present df year b ->
        ~ In b (popular_names df year) ->
        xleb (share df year b) (share df year a) = true
        /\ (modest df year ->
            exact_count df year b <= exact_count df year a))
  /\ (forall sorted,
        Permutation sorted (shares df year) -> ranked_desc sorted ->
        let top :=
          Pd.index (firstn (Pd.ceil_tenth (distinct_name_count df year))
                           sorted) in
        List.length top = Pd.ceil_tenth (distinct_name_count df year)
        /\ NoDup top
        /\ (forall a, In a top -> present df year a)
        /\ forall a b,
             In a top -> present df year b -> ~ In b top ->
             xleb (share df year b) (share df year a) = true
             /\ (modest df year ->
                 exact_count df year b <= exact_count df year a))
  /\ (distinct_name_count df year = 0%nat -> popular_names df year = []).
Proof.
  pose proof (length_popular_names df year) as L.
  split; [exact L |].
  split; [lia |].
  split.
  { rewrite L. unfold Pd.ceil_tenth.
    pose proof (Nat.div_mod_eq (distinct_name_count df year + 9) 10).
    pose proof (Nat.mod_upper_bound (distinct_name_count df year + 9) 10).
    lia. }
  split; [apply NoDup_popular_names |].
  split; [apply In_popular_names_present |].
  split.
  { intros a b Ha Hb Hnb.
    pose proof (@popular_names_top df year a b Ha Hb Hnb) as T.
    split; [exact T |]. intros Hm. exact (@share_le_count df year a b Hm T). }
  split.
  - intros sorted Hp Hs top.
    destruct (@any_ranking_facts df year sorted Hp) as [F1 [F2 F3]].
    split; [exact F1 |]. split; [exact F2 |]. split; [exact F3 |].
    intros a b Ha Hb Hnb.
    pose proof (@any_ranking_top df year sorted _ a b Hp Hs Ha Hb Hnb) as T.
    split; [exact T |]. intros Hm. exact (@share_le_count df year a b Hm T).
  - intros E. rewrite E in L. apply length_zero_iff_nil. exact L.
Qed.

Lemma sample_modest : modest Sample.frame 2010.
Proof.
  split; [| vm_compute; reflexivity].
  intros r Hr _. unfold Sample.frame in Hr.
  repeat (destruct Hr as [<- | Hr]; [cbn; lia |]). contradiction.
Qed.

Lemma popular_names_spec_witness :
  popular_names Sample.frame 2010 = ["Zara"]%string
  /\ distinct_name_count Sample.frame 2010 = 10%nat
  /\ List.length (popular_names Sample.frame 2010)
     = Pd.ceil_tenth (distinct_name_count Sample.frame 2010)
  /\ modest Sample.frame 2010
  /\ (forall a b,
        In a (popular_names Sample.frame 2010) ->
        present Sample.frame 2010 b ->
        ~ In b (popular_names Sample.frame 2010) ->
        xleb (share Sample.frame 2010 b) (share Sample.frame 2010 a) = true
        /\ (modest Sample.frame 2010 ->
            exact_count Sample.frame 2010 b
            <= exact_count Sample.frame 2010 a))
  /\ popular_names Sample.frame 1990 = [].
Proof.
  split; [vm_compute; reflexivity |].
  split; [vm_compute; reflexivity |].
  destruct (popular_names_spec Sample.frame 2010) as [L [_ [_ [_ [_ [H _]]]]]].
  split; [exact L |].
  split; [exact sample_modest |].
  split; [exact H |].
  destruct (popular_names_spec Sample.frame 1990)
    as [_ [_ [_ [_ [_ [_ [_ H0]]]]]]].
  apply H0. vm_compute. reflexivity.
Defined.

(** Beyond [2^53] the conversion to binary64 rounds: here the percentages
    of "A" and "B" are the same value, and "A" is taken although the count
    of "B" is larger. *)
Lemma popular_names_rounding :
  exact_count Sample.huge 2000 "A" < exact_count Sample.huge 2000 "B"
  /\ xleb (share Sample.huge 2000 "B") (share Sample.huge 2000 "A") = true
  /\ xleb (share Sample.huge 2000 "A") (share Sample.huge 2000 "B") = true
  /\ popular_names Sample.huge 2000 = ["A"]%string.
Proof. repeat split; vm_compute; reflexivity. Qed.

(** Claim C1, as the code has it.  For every frame and year, also one whose
    records have a total count of zero, [popular_names] returns a set to
    the caller and raises nothing; the caller's frame is still in place,
    and for a year without records the set is empty. *)
Theorem popular_names_returns (df : DataFrame) (year : Z) (s : store)
  (l : loc) :
  holds s l df ->
  (exists s',
     Obj.popular_names l year s = Return (popular_names df year) s'
     /\ holds s' l df)
  /\ ((forall r, In r df -> r_year r <> year) -> popular_names df year = []).
Proof.
  intros Hs. split.
  - destruct (returns_popular_names year Hs) as [fresh E].
    exists (s ++ fresh). split; [exact E | now apply holds_app].
  - intros H. apply nil_of_no_member. intros name Hn.
    apply In_popular_names_present in Hn. destruct Hn as [r [Hr [Hy _]]].
    now apply (H r).
Qed.

Lemma popular_names_returns_witness :
  holds [ODataFrame Sample.zeros] 0%nat Sample.zeros
  /\ year_total Sample.zeros 2000 = 0
  /\ (exists s',
        Obj.popular_names 0%nat 2000 [ODataFrame Sample.zeros]
        = Return (popular_names Sample.zeros 2000) s'
        /\ holds s' 0%nat Sample.zeros).
Proof.
  split; [reflexivity |].
  split; [reflexivity |].
  exact (proj1 (@popular_names_returns Sample.zeros 2000
                                        [ODataFrame Sample.zeros] 0%nat
                                        eq_refl)).
Defined.

(** Claim C1 as stated fails: on a frame whose year 2000 has a total count
    of zero, and on a year without any record, the ranker returns a set
    and raises no error. *)
Lemma popular_names_zero_total_counterexample :
  year_total Sample.zeros 2000 = 0
  /\ year_total Sample.zeros 1999 = 0
  /\ (exists s',
        Obj.popular_names 0%nat 2000 [ODataFrame Sample.zeros]
        = Return ["Ann"%string] s')
  /\ (exists s',
        Obj.popular_names 0%nat 1999 [ODataFrame Sample.zeros]
        = Return [] s')
  /\ ~ (forall df year s l,
          holds s l df -> year_total df year = 0 ->
          exists e, Obj.popular_names l year s = Raise e).
Proof.
  split; [reflexivity |].
  split; [reflexivity |].
  split; [eexists; vm_compute; reflexivity |].
  split; [eexists; vm_compute; reflexivity |].
  intros H.
  destruct (H Sample.zeros 2000 [ODataFrame Sample.zeros] 0%nat
              eq_refl eq_refl) as [e E].
  vm_compute in E. discriminate E.
Qed.

(** ** Emergence tracker *)

Lemma In_keys {V} (d : Py.dict V) (k : string) :
  In k (Py.keys d) <-> exists v, In (k, v) d.
Proof.
  unfold Py.keys. rewrite in_map_iff. split.
  - intros [[k' v] [E H]]. cbn in E. subst. now exists v.
  - intros [v H]. now exists (k, v).
Qed.

(** Claim C4.  The keys of [becomed_popular df year] are, without
    repetition, exactly the names of [new_names df year] that belong to
    [popular_names df y] for some [y] of [[year, year+9]]; the value of a
    key is the ascending list of exactly those years; the map is empty
    when no new name is popular in any year of the horizon. *)
Theorem becomed_popular_spec (df : DataFrame) (year : Z) :
  NoDup (Py.keys (becomed_popular df year))
  /\ (forall name,
        In name (Py.keys (becomed_popular df year))
        <-> In name (new_names df year)
            /\ exists y,
                 year <= y <= year + 9 /\ In name (popular_names df y))
  /\ (forall name years,
        In (name, years) (becomed_popular df year) ->
        Py.get (becomed_popular df year) name = Some years
        /\ years = popular_years df year name
        /\ StronglySorted Z.lt years
        /\ forall y,
             In y years
             <-> year <= y <= year + 9 /\ In name (popular_names df y))
  /\ ((forall name y,
         In name (new_names df year) -> year <= y <= year + 9 ->
         ~ In name (popular_names df y)) ->
      becomed_popular df year = []).
Proof.
  split; [apply NoDup_becomed_popular |].
  split.
  { intros name. rewrite In_keys. split.
    - intros [years H]. apply In_becomed_popular in H.
      destruct H as [Hn [E N]]. split; [assumption |].
      destruct years as [| y rest]; [congruence |].
      exists y. apply In_popular_years. rewrite <- E. now left.
    - intros [Hn [y Hy]]. exists (popular_years df year name).
      apply In_becomed_popular. repeat split; [assumption |].
      apply In_popular_years in Hy. intros E. rewrite E in Hy. contradiction. }
  split.
  { intros name years H.
    split; [now apply (get_In _ name years (NoDup_becomed_popular df year)) |].
    apply In_becomed_popular in H. destruct H as [_ [-> _]].
    split; [reflexivity |].
    split; [apply sorted_popular_years |].
    intros y. apply In_popular_years. }
  intros H. apply dict_nil. intros name. rewrite get_becomed_popular.
  destruct (Py.mem name (new_names df year)) eqn:E; [| reflexivity].
  apply mem_In in E.
  destruct (popular_years df year name) as [| y rest] eqn:P; [reflexivity |].
  exfalso. assert (I : In y (popular_years df year name))
    by (rewrite P; now left).
  apply In_popular_years in I. destruct I as [B I]. exact (H name y E B I).
Qed.

Lemma becomed_popular_spec_witness :
  becomed_popular Sample.frame 2010
  = [("Zara"%string, [2010; 2011; 2012; 2013; 2014])]
  /\ (In ("Zara"%string, [2010; 2011; 2012; 2013; 2014])
         (becomed_popular Sample.frame 2010) ->
      [2010; 2011; 2012; 2013; 2014] = popular_years Sample.frame 2010 "Zara")
  /\ becomed_popular Sample.frame 2011 = [].
Proof.
  split; [vm_compute; reflexivity |].
  destruct (becomed_popular_spec Sample.frame 2010) as [_ [_ [H _]]].
  split; [intros I; exact (proj1 (proj2 (H _ _ I))) |].
  vm_compute. reflexivity.
Defined.

(** ** Trend setters *)

(** Claim C7.  [trend_setter df year] is the concatenation, over the keys
    of [becomed_popular df year], of [states_with_name df year name]: the
    locator is queried at [year] itself, so a region is listed exactly when
    it reports an emerged name in [year]; the list is empty when the
    emergence map is. *)
Theorem trend_setter_spec (df : DataFrame) (year : Z) :
  trend_setter df year
  = flat_map (fun name => states_with_name df year name)
             (Py.keys (becomed_popular df year))
  /\ (forall state,
        In state (trend_setter df year)
        <-> exists name,
              In name (Py.keys (becomed_popular df year))
              /\ reports df year name state)
  /\ (becomed_popular df year = [] -> trend_setter df year = []).
Proof.
  split; [apply trend_setter_eq |].
  split.
  - intros state. rewrite trend_setter_eq, in_flat_map.
    split; intros [name [Hk Hs]]; exists name; split; try assumption;
      now apply In_states_with_name.
  - intros E. rewrite trend_setter_eq, E. reflexivity.
Qed.

Lemma trend_setter_spec_witness :
  trend_setter Sample.frame 2010 = ["CA"%string]
  /\ (becomed_popular Sample.frame 2011 = [] ->
      trend_setter Sample.frame 2011 = []).
Proof.
  split; [vm_compute; reflexivity |].
  exact (proj2 (proj2 (trend_setter_spec Sample.frame 2011))).
Defined.

(** Claim C6.  [trend_setter_period df start end_] maps each region to the
    sum, over the years of [[start, end_]], of its occurrences in
    [trend_setter df year]; a region whose sum is zero has no entry, no
    region has two entries, and the map is empty when every year yields an
    empty list.  (No order between [start] and [end_] is needed.) *)
Theorem trend_setter_period_spec (df : DataFrame) (start end_ : Z) :
  NoDup (Py.keys (trend_setter_period df start end_))
  /\ (forall region,
        Py.get (trend_setter_period df start end_) region
        = let n := occurrences_over (trend_setter df) start end_ region in
          if 0 <? n then Some n else None)
  /\ (forall region n,
        In (region, n) (trend_setter_period df start end_)
        <-> n = occurrences_over (trend_setter df) start end_ region
            /\ 0 < n)
  /\ (forall region,
        occurrences_over (trend_setter df) start end_ region = 0 ->
        ~ In region (Py.keys (trend_setter_period df start end_)))
  /\ ((forall year, start <= year <= end_ -> trend_setter df year = []) ->
      trend_setter_period df start end_ = []).
Proof.
  assert (Hn : NoDup (Py.keys (trend_setter_period df start end_)))
    by apply NoDup_period_loop.
  split; [exact Hn |].
  split; [apply get_trend_setter_period |].
  split.
  { intros region n. rewrite (get_In _ region n Hn), get_trend_setter_period.
    cbv zeta.
    destruct (0 <? occurrences_over (trend_setter df) start end_ region)
      eqn:E.
    - split; [intros [= <-]; split; [reflexivity | lia]
             | intros [-> _]; reflexivity].
    - split; [discriminate | intros [-> C]; lia]. }
  split.
  { intros region E. apply get_None. rewrite get_trend_setter_period.
    cbv zeta. now rewrite E. }
  intros H. apply dict_nil. intros region.
  rewrite get_trend_setter_period. cbv zeta.
  assert (E : occurrences_over (trend_setter df) start end_ region = 0).
  { unfold occurrences_over.
    assert (G : forall ys,
               (forall y, In y ys -> trend_setter df y = []) ->
               Pd.sum (map (fun y => occurrences (trend_setter df y) region) ys)
               = 0).
    { induction ys as [| y ys IH]; intros Hy; [reflexivity |].
      cbn [map]. rewrite sum_cons, IH by (intros; apply Hy; now right).
      rewrite (Hy y) by now left. reflexivity. }
    apply G. intros y Hy. apply In_range in Hy. apply H. lia. }
  now rewrite E.
Qed.

Lemma trend_setter_period_spec_witness :
  trend_setter_period Sample.frame 2009 2011 = [("CA"%string, 2)]
  /\ ((forall year, 2011 <= year <= 2013 -> trend_setter Sample.frame year = [])
      -> trend_setter_period Sample.frame 2011 2013 = []).
Proof.
  split; [vm_compute; reflexivity |].
  exact (proj2 (proj2 (proj2 (proj2
           (trend_setter_period_spec Sample.frame 2011 2013))))).
Defined.

(** ** Late adopters *)

Lemma In_regions_over (df : DataFrame) (name : string) (years : list Z)
  (state : string) :
  In state (regions_over df name years)
  <-> exists y, In y years /\ reports df y name state.
Proof.
  unfold regions_over. rewrite in_flat_map.
  split; intros [y [Hy H]]; exists y; split; try assumption;
    now apply In_states_with_name.
Qed.

Lemma occurrences_filter (p : string -> bool) (l : list string) (s : string) :
  occurrences (filter p l) s = if p s then occurrences l s else 0.
Proof.
  induction l as [| x l IH]; cbn [filter].
  - now destruct (p s).
  - rewrite occurrences_cons. destruct (String.eqb_spec s x) as [<- | N].
    + destruct (p s) eqn:E; [now rewrite occurrences_cons, String.eqb_refl, IH |].
      rewrite IH. reflexivity.
    + destruct (p x); [rewrite occurrences_cons |]; rewrite IH;
        destruct (String.eqb_spec s x); try congruence;
        destruct (p s); reflexivity.
Qed.

Lemma occurrences_app (l1 l2 : list string) (s : string) :
  occurrences (l1 ++ l2) s = occurrences l1 s + occurrences l2 s.
Proof. unfold occurrences. rewrite count_occ_app. lia. Qed.

Lemma occurrences_flat_map {A} (f : A -> list string) (l : list A)
  (s : string) :
  occurrences (flat_map f l) s = Pd.sum (map (fun x => occurrences (f x) s) l).
Proof.
  induction l as [| x l IH]; [reflexivity |].
  cbn [flat_map map]. now rewrite occurrences_app, sum_cons, IH.
Qed.

Lemma occurrences_NoDup (l : list string) (s : string) :
  NoDup l -> occurrences l s = if Py.mem s l then 1 else 0.
Proof.
  induction 1 as [| x l Hx Hl IH]; [reflexivity |].
  rewrite occurrences_cons, IH. unfold Py.mem. cbn [existsb].
  fold (Py.mem s l).
  destruct (String.eqb_spec s x) as [-> | N]; cbn [orb]; [| reflexivity].
  apply mem_false in Hx. now rewrite Hx.
Qed.

(** Claim C5.  [late_adopters df year] returns the concatenation, over the
    items of [becomed_popular df year], of the late-only regions of each
    name.  For a name with emergence years [years], with
    [first_popular_year = min years + 1]: the late list counts a region
    once for every year of [[first_popular_year, first_popular_year+2]] in
    which it reports the name; the early regions are those reporting the
    name in some year of [[year, first_popular_year)]; and a region keeps
    all its late occurrences when it is not early, and none otherwise. *)
Theorem late_adopters_correct (df : DataFrame) (year : Z) :
  late_adopters df year
  = Some (flat_map (fun item => late_only df year (fst item) (snd item))
                   (becomed_popular df year))
  /\ (forall name years,
        In (name, years) (becomed_popular df year) ->
        Py.min years = Some (least years))
  /\ forall name years state,
       let first_popular_year := least years + 1 in
       let early := regions_over df name (Py.range year first_popular_year) in
       let late :=
         regions_over df name
                      (Py.range first_popular_year (first_popular_year + 3)) in
       occurrences (late_only df year name years) state
       = (if Py.mem state early then 0 else occurrences late state)
       /\ occurrences late state
          = Pd.sum
              (map (fun q =>
                      if Py.mem state (states_with_name df q name)
                      then 1 else 0)
                   (Py.range first_popular_year (first_popular_year + 3)))
       /\ (In state early
           <-> exists p,
                 year <= p < first_popular_year /\ reports df p name state)
       /\ (In state (late_only df year name years)
           <-> (exists q,
                  first_popular_year <= q <= first_popular_year + 2
                  /\ reports df q name state)
               /\ ~ (exists p,
                       year <= p < first_popular_year
                       /\ reports df p name state)).
Proof.
  split; [apply late_adopters_eq |].
  split.
  { intros name years H. apply min_least.
    exact (@becomed_popular_nonempty df year (name, years) H). }
  intros name years state first_popular_year early late.
  assert (He : In state early
               <-> exists p,
                     year <= p < first_popular_year
                     /\ reports df p name state).
  { unfold early. rewrite In_regions_over.
    split; intros [p [Hp H]]; exists p; (split; [| assumption]);
      now apply In_range. }
  split.
  { unfold late_only. fold first_popular_year. fold early. fold late.
    rewrite occurrences_filter. now destruct (Py.mem state early). }
  split.
  { unfold late, regions_over. rewrite occurrences_flat_map.
    apply f_equal, map_ext. intros q. apply occurrences_NoDup, NoDup_set. }
  split; [exact He |].
  unfold late_only. fold first_popular_year. fold early. fold late.
  rewrite filter_In, negb_true_iff, mem_false, He.
  unfold late. rewrite In_regions_over.
  split; intros [[q [Hq H]] N]; (split; [| assumption]); exists q;
    (split; [| assumption]); apply In_range in Hq || apply In_range; lia.
Qed.

Lemma late_adopters_correct_witness :
  late_adopters Sample.frame 2010 = Some ["TX"; "TX"]%string
  /\ (In ("Zara"%string, [2010; 2011; 2012; 2013; 2014])
         (becomed_popular Sample.frame 2010) ->
      Py.min [2010; 2011; 2012; 2013; 2014]
      = Some (least [2010; 2011; 2012; 2013; 2014])).
Proof.
  split; [vm_compute; reflexivity |].
  exact (proj1 (proj2 (late_adopters_correct Sample.frame 2010))
           "Zara"%string [2010; 2011; 2012; 2013; 2014]).
Defined.

(** Claim C10.  Every year list of [becomed_popular df year] has a minimum,
    and it is at least [year]; so the comprehension of [late_adopters]
    succeeds, every [first_popular_year] it yields is at least [year + 1],
    and the early range [[year, first_popular_year)] is never empty: it
    contains [year]. *)
Theorem first_popular_year_after (df : DataFrame) (year : Z) :
  (forall name years,
     In (name, years) (becomed_popular df year) ->
     exists m, Py.min years = Some m /\ year <= m)
  /\ exists names,
       first_popular (becomed_popular df year) = Some names
       /\ forall name y,
            In (name, y) names ->
            year + 1 <= y
            /\ y <> year
            /\ Py.range year y <> []
            /\ In year (Py.range year y).
Proof.
  split.
  { intros name years H. exists (least years). split.
    - apply min_least. exact (@becomed_popular_nonempty df year (name, years) H).
    - now apply (@least_bounds df year name years H). }
  eexists. split.
  { apply first_popular_eq. apply becomed_popular_nonempty. }
  intros name y H. apply in_map_iff in H.
  destruct H as [[name' years] [E H]]. cbn in E. injection E as -> <-.
  pose proof (@least_bounds df year name years H) as B.
  assert (I : In year (Py.range year (least years + 1)))
    by (apply In_range; lia).
  repeat split; try lia; [| exact I].
  intros C. rewrite C in I. contradiction.
Qed.

Lemma first_popular_year_after_witness :
  first_popular (becomed_popular Sample.frame 2010)
  = Some [("Zara"%string, 2011)]
  /\ (In ("Zara"%string, [2010; 2011; 2012; 2013; 2014])
         (becomed_popular Sample.frame 2010) ->
      exists m,
        Py.min [2010; 2011; 2012; 2013; 2014] = Some m /\ 2010 <= m).
Proof.
  split; [vm_compute; reflexivity |].
  exact (proj1 (first_popular_year_after Sample.frame 2010)
           "Zara"%string [2010; 2011; 2012; 2013; 2014]).
Defined.

(** ** The caller's frame *)

(** Claim C9.  Each of the eight operations, run from any store that holds
    the caller's frame, returns and leaves that frame as it was: the same
    records, with the same fields, in the same order. *)
Theorem dataset_unchanged (df : loc) :
  (forall year, leaves_unchanged df (Obj.new_names df year))
  /\ (forall year name,
        leaves_unchanged df (Obj.states_with_name df year name))
  /\ (forall year, leaves_unchanged df (Obj.popular_names df year))
  /\ (forall year, leaves_unchanged df (Obj.becomed_popular df year))
  /\ (forall year, leaves_unchanged df (Obj.trend_setter df year))
  /\ (forall start end_,
        leaves_unchanged df (Obj.trend_setter_period df start end_))
  /\ (forall year, leaves_unchanged df (Obj.late_adopters df year))
  /\ (forall start end_,
        leaves_unchanged df (Obj.late_adopters_period df start end_)).
Proof.
  repeat split; intros; apply returns_unchanged; intros rows; eexists.
  - apply returns_new_names.
  - apply returns_states_with_name.
  - apply returns_popular_names.
  - apply returns_becomed_popular.
  - apply returns_trend_setter.
  - apply returns_trend_setter_period.
  - apply returns_late_adopters.
  - apply returns_late_adopters_period, late_adopters_period_eq.
Qed.

Lemma dataset_unchanged_witness :
  holds [ODataFrame Sample.frame] 0%nat Sample.frame
  /\ exists v s',
       Obj.popular_names 0%nat 2010 [ODataFrame Sample.frame] = Return v s'
       /\ holds s' 0%nat Sample.frame
       /\ forall l o,
            nth_error [ODataFrame Sample.frame] l = Some o ->
            nth_error s' l = Some o.
Proof.
  split; [reflexivity |].
  exact (proj1 (proj2 (proj2 (dataset_unchanged 0%nat))) 2010
           [ODataFrame Sample.frame] Sample.frame eq_refl).
Defined.


(** * Further properties of the code *)

(** ** Size of the ranking *)

Lemma present_distinct (df : DataFrame) (year : Z) (name : string) :
  present df year name <-> In name (distinct_names df year).
Proof. unfold distinct_names. now rewrite set_In, present_iff. Qed.

Lemma ceil_tenth_pos (n : nat) : (0 < n -> 0 < Pd.ceil_tenth n)%nat.
Proof.
  intros H. destruct (Pd.ceil_tenth n) eqn:E; [| lia].
  assert (L : (Pd.ceil_tenth n <= 0)%nat) by lia.
  apply ceil_tenth_spec in L. lia.
Qed.

(** [popular_names] returns exactly [ceil (n / 10)] names, never more than
    the year has; so a year with at least one record always has a popular
    name, whatever its counts. *)
Theorem popular_names_size (df : DataFrame) (year : Z) :
  List.length (popular_names df year)
  = Pd.ceil_tenth (distinct_name_count df year)
  /\ (List.length (popular_names df year) <= distinct_name_count df year)%nat
  /\ (forall name, present df year name -> popular_names df year <> []).
Proof.
  pose proof (length_popular_names df year) as L.
  split; [exact L |].
  split; [rewrite L; apply ceil_tenth_le |].
  intros name Hp E. rewrite E in L. cbn [List.length] in L.
  apply present_distinct in Hp.
  assert (N : (0 < distinct_name_count df year)%nat).
  { unfold distinct_name_count.
    destruct (distinct_names df year); [contradiction | cbn; lia]. }
  apply ceil_tenth_pos in N. lia.
Qed.

Lemma popular_names_size_witness :
  List.length (popular_names Sample.frame 2012) = 1%nat
  /\ (present Sample.frame 2012 "Ann" -> popular_names Sample.frame 2012 <> []).
Proof.
  split; [vm_compute; reflexivity |].
  exact (proj2 (proj2 (popular_names_size Sample.frame 2012)) "Ann"%string).
Defined.

(** A name whose percentage is strictly above that of every other name of
    its year is popular (percentages as the code computes them, with
    [NaN] lowest); so is, in a year whose counts are non-negative and add
    up to less than [2^50], a name whose summed count is strictly the
    largest. *)
Theorem popular_names_strict_max (df : DataFrame) (year : Z) (a : string) :
  present df year a ->
  ((forall b,
      present df year b -> b <> a ->
      xleb (share df year a) (share df year b) = false) ->
   In a (popular_names df year))
  /\ (modest df year ->
      (forall b,
         present df year b -> b <> a ->
         exact_count df year b < exact_count df year a) ->
      In a (popular_names df year)).
Proof.
  intros Ha.
  assert (G : (forall b,
                 present df year b -> b <> a ->
                 xleb (share df year a) (share df year b) = false) ->
              In a (popular_names df year)).
  { intros Hs.
    destruct (in_dec string_dec a (popular_names df year)) as [I | N];
      [exact I | exfalso].
    destruct (popular_names df year) as [| b rest] eqn:E.
    - pose proof (length_popular_names df year) as L. rewrite E in L.
      cbn [List.length] in L.
      apply present_distinct in Ha.
      assert (P : (0 < distinct_name_count df year)%nat).
      { unfold distinct_name_count.
        destruct (distinct_names df year); [contradiction | cbn; lia]. }
      apply ceil_tenth_pos in P. lia.
    - assert (Ib : In b (popular_names df year)) by (rewrite E; now left).
      rewrite <- E in N.
      pose proof (@popular_names_top df year b a Ib Ha N) as C.
      assert (Hne : b <> a) by (intros ->; contradiction).
      rewrite (Hs b (@In_popular_names_present df year b Ib) Hne) in C.
      discriminate C. }
  split; [exact G |].
  intros Hm H. apply G. intros b Hb Hne.
  apply (@share_lt_count df year a b Hm). now apply H.
Qed.

Lemma popular_names_strict_max_witness :
  present Sample.frame 2010 "Zara"
  /\ modest Sample.frame 2010
  /\ In "Zara"%string (popular_names Sample.frame 2010).
Proof.
  assert (P : present Sample.frame 2010 "Zara").
  { exists (mkRow "Zara" "F" 90 2010 "CA"). repeat split. now left. }
  split; [exact P |].
  split; [exact sample_modest |].
  apply (proj2 (@popular_names_strict_max Sample.frame 2010 "Zara"%string P)
           sample_modest).
  intros b [r [Hr [Hy Hn]]] Hne. subst b.
  unfold Sample.frame in Hr.
  repeat (destruct Hr as [<- | Hr];
          [cbn [r_year r_name] in Hy, Hne |- *;
           first [discriminate Hy | congruence | vm_compute; reflexivity] |]).
  contradiction.
Defined.

(** ** The first years of a frame *)

(** When the frame has no record in the eleven years before [year], every
    name of [year] is new. *)
Theorem new_names_without_past (df : DataFrame) (year : Z) :
  (forall r, In r df -> ~ year - 11 <= r_year r <= year - 1) ->
  new_names df year = distinct_names df year.
Proof.
  intros H. unfold new_names, distinct_names.
  assert (E : filter (fun r => (year - 11 <=? r_year r)
                               && (r_year r <=? year - 1)) df = []).
  { apply nil_of_no_member. intros r Hr. apply filter_In in Hr.
    destruct Hr as [Hr C]. apply andb_true_iff in C. apply (H r Hr). lia. }
  rewrite E. cbn [map Py.set nodup Py.mem existsb negb].
  rewrite forallb_filter_id.
  - apply set_NoDup, NoDup_set.
  - apply forallb_forall. reflexivity.
Qed.

Lemma new_names_without_past_witness :
  new_names Sample.frame 2009 = distinct_names Sample.frame 2009.
Proof.
  apply new_names_without_past. intros r Hr.
  unfold Sample.frame in Hr.
  repeat (destruct Hr as [<- | Hr]; [cbn; lia |]). contradiction.
Defined.

(** ** Popular from the first year *)

(** A new name that is popular in [year] itself has [year] as its first
    emergence year, so [late_adopters] takes [year + 1] as the year it
    became popular. *)
Theorem becomed_popular_at_once (df : DataFrame) (year : Z) (name : string) :
  In name (new_names df year) -> In name (popular_names df year) ->
  exists rest,
    In (name, year :: rest) (becomed_popular df year)
    /\ Py.min (year :: rest) = Some year
    /\ exists names,
         first_popular (becomed_popular df year) = Some names
         /\ In (name, year + 1) names.
Proof.
  intros Hn Hp.
  assert (E : exists rest, popular_years df year name = year :: rest).
  { unfold popular_years. rewrite range_cons by lia. cbn [filter].
    apply mem_In in Hp. rewrite Hp. eexists. reflexivity. }
  destruct E as [rest E]. exists rest.
  assert (I : In (name, year :: rest) (becomed_popular df year)).
  { apply In_becomed_popular. rewrite E. repeat split; [assumption |].
    discriminate. }
  assert (L : least (year :: rest) = year).
  { pose proof (@least_bounds df year name (year :: rest) I) as B.
    assert (least (year :: rest) <= year); [| lia].
    unfold least. clear. induction rest as [| z rest IH]; cbn; lia. }
  split; [exact I |].
  split; [rewrite min_least by discriminate; now rewrite L |].
  eexists. split.
  - apply first_popular_eq. apply becomed_popular_nonempty.
  - apply in_map_iff. exists (name, year :: rest).
    split; [cbn [fst snd]; now rewrite L | exact I].
Qed.

Lemma becomed_popular_at_once_witness :
  exists rest,
    In ("Zara"%string, 2010 :: rest) (becomed_popular Sample.frame 2010)
    /\ Py.min (2010 :: rest) = Some 2010
    /\ exists names,
         first_popular (becomed_popular Sample.frame 2010) = Some names
         /\ In ("Zara"%string, 2010 + 1) names.
Proof.
  apply becomed_popular_at_once.
  - vm_compute. now left.
  - vm_compute. now left.
Defined.

(** ** Trend setters of a year *)

Lemma flat_map_nil {A B} (f : A -> list B) (l : list A) :
  flat_map f l = [] <-> forall x, In x l -> f x = [].
Proof.
  induction l as [| x l IH]; cbn.
  - split; [intros _ y [] | reflexivity].
  - split.
    + intros E y [<- | Hy]; apply app_eq_nil in E; [tauto |].
      now apply IH.
    + intros H. rewrite (H x) by now left. apply IH.
      intros y Hy. apply H. now right.
Qed.

Lemma key_present (df : DataFrame) (year : Z) (name : string) :
  In name (Py.keys (becomed_popular df year)) -> present df year name.
Proof.
  intros H. apply In_keys in H. destruct H as [years H].
  apply In_becomed_popular in H. destruct H as [H _].
  now apply In_new_names in H.
Qed.

Lemma present_reports (df : DataFrame) (year : Z) (name : string) :
  present df year name -> exists state, reports df year name state.
Proof.
  intros [r [Hr [Hy Hn]]]. exists (r_state r), r. auto.
Qed.

(** [trend_setter] is empty only when no name emerged: every emerged name
    is reported by some region in [year], and that region is listed. *)
Theorem trend_setter_nil_iff (df : DataFrame) (year : Z) :
  (trend_setter df year = [] <-> becomed_popular df year = [])
  /\ (forall name,
        In name (Py.keys (becomed_popular df year)) ->
        exists state,
          reports df year name state /\ In state (trend_setter df year)).
Proof.
  assert (G : forall name,
             In name (Py.keys (becomed_popular df year)) ->
             exists state,
               reports df year name state /\ In state (trend_setter df year)).
  { intros name Hk.
    destruct (present_reports (key_present _ _ _ Hk)) as [state Hs].
    exists state. split; [exact Hs |].
    rewrite trend_setter_eq. apply in_flat_map. exists name.
    split; [exact Hk | now apply In_states_with_name]. }
  split; [| exact G].
  split.
  - intros E. destruct (becomed_popular df year) as [| [name years] rest] eqn:B;
      [reflexivity | exfalso].
    destruct (G name) as [state [_ I]]; [now left |].
    rewrite E in I. contradiction.
  - intros E. rewrite trend_setter_eq, E. reflexivity.
Qed.

Lemma trend_setter_nil_iff_witness :
  (trend_setter Sample.frame 2010 = [] <-> becomed_popular Sample.frame 2010 = [])
  /\ (In "Zara"%string (Py.keys (becomed_popular Sample.frame 2010)) ->
      exists state,
        reports Sample.frame 2010 "Zara" state
        /\ In state (trend_setter Sample.frame 2010)).
Proof.
  split.
  - exact (proj1 (trend_setter_nil_iff Sample.frame 2010)).
  - exact (proj2 (trend_setter_nil_iff Sample.frame 2010) "Zara"%string).
Defined.

Lemma sum_indicator_filter {A} (p : A -> bool) (l : list A) :
  Pd.sum (map (fun x => if p x then 1 else 0) l)
  = Z.of_nat (List.length (filter p l)).
Proof.
  induction l as [| x l IH]; [reflexivity |].
  cbn [map filter]. rewrite sum_cons, IH.
  destruct (p x); cbn [List.length]; lia.
Qed.

(** A region occurs in [trend_setter] once for every emerged name it
    reports in [year], hence at most as often as there are emerged
    names. *)
Theorem trend_setter_occurrences (df : DataFrame) (year : Z)
  (region : string) :
  occurrences (trend_setter df year) region
  = Z.of_nat
      (List.length
         (filter (fun name => Py.mem region (states_with_name df year name))
                 (Py.keys (becomed_popular df year))))
  /\ occurrences (trend_setter df year) region
     <= Z.of_nat (List.length (becomed_popular df year)).
Proof.
  assert (E : occurrences (trend_setter df year) region
              = Z.of_nat
                  (List.length
                     (filter (fun name =>
                                Py.mem region (states_with_name df year name))
                             (Py.keys (becomed_popular df year))))).
  { rewrite trend_setter_eq, occurrences_flat_map, <- sum_indicator_filter.
    f_equal. apply map_ext. intros name.
    apply occurrences_NoDup, NoDup_set. }
  split; [exact E |].
  rewrite E.
  pose proof (filter_length_le
                (fun name => Py.mem region (states_with_name df year name))
                (Py.keys (becomed_popular df year))) as L.
  unfold Py.keys in L at 2. rewrite length_map in L. lia.
Qed.

(** ** Tallies over a period *)

Lemma range_app (lo mid hi : Z) :
  lo <= mid <= hi -> Py.range lo hi = Py.range lo mid ++ Py.range mid hi.
Proof.
  intros H. remember (Z.to_nat (mid - lo)) as n eqn:E. revert lo H E.
  induction n as [| n IH]; intros lo H E.
  - assert (mid = lo) by lia. subst mid.
    now rewrite (@range_empty lo lo) by lia.
  - rewrite (@range_cons lo hi), (@range_cons lo mid) by lia.
    cbn [app]. f_equal. apply IH; lia.
Qed.

Lemma count_of_period_loop (f : Z -> list string) (ys : list Z)
  (region : string) :
  count_of
    (fold_left
       (fun states y =>
          if (0 <? List.length (f y))%nat
          then fold_left tally (f y) states
          else states)
       ys [])
    region
  = Pd.sum (map (fun y => occurrences (f y) region) ys).
Proof.
  unfold count_of. rewrite get_period_loop. cbv zeta.
  pose proof (sum_occurrences_nonneg f ys region) as N.
  destruct (0 <? Pd.sum (map (fun y => occurrences (f y) region) ys)) eqn:E;
    lia.
Qed.

Lemma occurrences_over_split (f : Z -> list string) (start mid end_ : Z)
  (region : string) :
  start <= mid + 1 -> mid <= end_ ->
  occurrences_over f start end_ region
  = occurrences_over f start mid region
    + occurrences_over f (mid + 1) end_ region.
Proof.
  intros H1 H2. unfold occurrences_over.
  rewrite (@range_app start (mid + 1) (end_ + 1)) by lia.
  now rewrite map_app, sum_app.
Qed.

(** The tallies of a period are the sums of the tallies of its two parts,
    region by region (a region without entry counting for zero). *)
Theorem trend_setter_period_split (df : DataFrame) (start mid end_ : Z)
  (region : string) :
  start <= mid + 1 -> mid <= end_ ->
  count_of (trend_setter_period df start end_) region
  = count_of (trend_setter_period df start mid) region
    + count_of (trend_setter_period df (mid + 1) end_) region.
Proof.
  intros H1 H2. unfold trend_setter_period.
  rewrite !count_of_period_loop.
  now apply (occurrences_over_split (trend_setter df)).
Qed.

Lemma trend_setter_period_split_witness :
  count_of (trend_setter_period Sample.frame 2009 2011) "CA"
  = count_of (trend_setter_period Sample.frame 2009 2009) "CA"
    + count_of (trend_setter_period Sample.frame (2009 + 1) 2011) "CA".
Proof.
  apply trend_setter_period_split; lia.
Defined.

(** A period whose end precedes its start yields the empty map. *)
Theorem period_empty_range (df : DataFrame) (start end_ : Z) :
  end_ < start ->
  trend_setter_period df start end_ = []
  /\ late_adopters_period df start end_ = Some [].
Proof.
  intros H. unfold trend_setter_period, late_adopters_period.
  rewrite range_empty by lia. split; reflexivity.
Qed.

Lemma period_empty_range_witness :
  trend_setter_period Sample.frame 2012 2010 = []
  /\ late_adopters_period Sample.frame 2012 2010 = Some [].
Proof.
  apply period_empty_range. lia.
Defined.

(** Over a single year the map lists exactly the regions of
    [trend_setter], each with its number of occurrences. *)
Theorem trend_setter_period_single (df : DataFrame) (year : Z)
  (region : string) :
  Py.get (trend_setter_period df year year) region
  = if Py.mem region (trend_setter df year)
    then Some (occurrences (trend_setter df year) region)
    else None.
Proof.
  rewrite get_trend_setter_period. unfold occurrences_over.
  rewrite range_cons, range_empty by lia. cbn [map]. rewrite sum_cons.
  cbn [Pd.sum fold_right]. rewrite Z.add_0_r. cbv zeta.
  destruct (Py.mem region (trend_setter df year)) eqn:E.
  - apply mem_In, occurrences_pos in E.
    destruct (0 <? occurrences (trend_setter df year) region) eqn:P;
      [reflexivity | lia].
  - apply mem_false in E.
    destruct (0 <? occurrences (trend_setter df year) region) eqn:P;
      [| reflexivity].
    exfalso. apply E, occurrences_pos. lia.
Qed.

Lemma sum_values_setitem (d : Py.dict Z) (k : string) (v : Z) :
  ~ In k (Py.keys d) ->
  Pd.sum (map snd (Py.setitem d k v)) = Pd.sum (map snd d) + v.
Proof.
  unfold Py.keys. induction d as [| [k0 v0] d IH]; intros H.
  - cbn. lia.
  - cbn [Py.setitem]. destruct (String.eqb_spec k k0) as [-> | N].
    + exfalso. apply H. now left.
    + cbn [map snd]. rewrite !sum_cons, IH; [lia |].
      intros I. apply H. now right.
Qed.

Lemma sum_values_adjust (d : Py.dict Z) (k : string) :
  NoDup (Py.keys d) -> In k (Py.keys d) ->
  Pd.sum (map snd (Py.adjust (fun n => n + 1) d k)) = Pd.sum (map snd d) + 1.
Proof.
  unfold Py.keys. induction d as [| [k0 v0] d IH]; intros Hn H; [contradiction |].
  cbn [Py.adjust]. destruct (String.eqb_spec k k0) as [-> | N].
  - cbn [map snd]. rewrite !sum_cons. lia.
  - cbn [map snd]. rewrite !sum_cons, IH; [lia | now inversion Hn |].
    destruct H as [E | H]; [cbn in E; congruence | exact H].
Qed.

Lemma sum_values_tally (d : Py.dict Z) (s : string) :
  NoDup (Py.keys d) ->
  Pd.sum (map snd (tally d s)) = Pd.sum (map snd d) + 1.
Proof.
  intros Hn. unfold tally. destruct (Py.mem s (Py.keys d)) eqn:E; cbn [negb].
  - apply sum_values_adjust; [assumption | now apply mem_In].
  - apply sum_values_setitem. now apply mem_false.
Qed.

Lemma sum_values_tally_loop (l : list string) (d : Py.dict Z) :
  NoDup (Py.keys d) ->
  Pd.sum (map snd (fold_left tally l d))
  = Pd.sum (map snd d) + Z.of_nat (List.length l).
Proof.
  revert d. induction l as [| s l IH]; intros d Hn; cbn [fold_left List.length].
  - lia.
  - rewrite IH by (unfold tally; now apply NoDup_upsert).
    rewrite sum_values_tally by assumption. lia.
Qed.

Lemma sum_values_period_loop (f : Z -> list string) (ys : list Z) :
  Pd.sum
    (map snd
       (fold_left
          (fun states y =>
             if (0 <? List.length (f y))%nat
             then fold_left tally (f y) states
             else states)
          ys []))
  = Pd.sum (map (fun y => Z.of_nat (List.length (f y))) ys).
Proof.
  induction ys as [| y ys IH] using rev_ind; [reflexivity |].
  rewrite fold_left_app. cbn [fold_left]. rewrite guarded_tally.
  rewrite sum_values_tally_loop by apply NoDup_period_loop.
  rewrite IH, map_app, sum_app. cbn [map]. rewrite sum_cons.
  cbn [Pd.sum fold_right]. lia.
Qed.

(** Nothing is lost or invented by the tallying: the values of the map add
    up to the lengths of the yearly lists. *)
Theorem trend_setter_period_total (df : DataFrame) (start end_ : Z) :
  Pd.sum (map snd (trend_setter_period df start end_))
  = Pd.sum (map (fun year => Z.of_nat (List.length (trend_setter df year)))
                (Py.range start (end_ + 1))).
Proof. unfold trend_setter_period. apply sum_values_period_loop. Qed.

(** ** Late adopters over a period *)

(** [late_adopters_period] always returns a map; it gives each region the
    sum, over the years of [[start, end_]], of its occurrences in
    [late_adopters], no entry to a region whose sum is zero, and no region
    two entries; its values add up to the lengths of the yearly lists. *)
Theorem late_adopters_period_spec (df : DataFrame) (start end_ : Z) :
  exists late states,
    (forall year, late_adopters df year = Some (late year))
    /\ late_adopters_period df start end_ = Some states
    /\ NoDup (Py.keys states)
    /\ (forall region,
          Py.get states region
          = let n := occurrences_over late start end_ region in
            if 0 <? n then Some n else None)
    /\ Pd.sum (map snd states)
       = Pd.sum (map (fun year => Z.of_nat (List.length (late year)))
                     (Py.range start (end_ + 1))).
Proof.
  exists (late_adopters_spec df). eexists.
  split; [apply late_adopters_eq |].
  split; [apply late_adopters_period_eq |].
  split; [apply NoDup_period_loop |].
  split; [intros region; apply get_period_loop |].
  apply sum_values_period_loop.
Qed.

(** The tallies of late adopters over a period are the sums of the tallies
    over its two parts. *)
Theorem late_adopters_period_split (df : DataFrame) (start mid end_ : Z) :
  start <= mid + 1 -> mid <= end_ ->
  exists whole left right,
    late_adopters_period df start end_ = Some whole
    /\ late_adopters_period df start mid = Some left
    /\ late_adopters_period df (mid + 1) end_ = Some right
    /\ forall region,
         count_of whole region = count_of left region + count_of right region.
Proof.
  intros H1 H2. do 3 eexists.
  split; [apply late_adopters_period_eq |].
  split; [apply late_adopters_period_eq |].
  split; [apply late_adopters_period_eq |].
  intros region. rewrite !count_of_period_loop.
  now apply (occurrences_over_split (late_adopters_spec df)).
Qed.

Lemma late_adopters_period_split_witness :
  exists whole left right,
    late_adopters_period Sample.frame 2009 2011 = Some whole
    /\ late_adopters_period Sample.frame 2009 2009 = Some left
    /\ late_adopters_period Sample.frame (2009 + 1) 2011 = Some right
    /\ forall region,
         count_of whole region = count_of left region + count_of right region.
Proof.
  apply late_adopters_period_split; lia.
Defined.

(** ** Where late adopters come from *)

Lemma In_late_only (df : DataFrame) (year : Z) (name : string)
  (years : list Z) (state : string) :
  In state (late_only df year name years)
  <-> (exists q,
         least years + 1 <= q <= least years + 3 /\ reports df q name state)
      /\ ~ (exists p, year <= p <= least years /\ reports df p name state).
Proof.
  unfold late_only.
  rewrite filter_In, negb_true_iff, mem_false, !In_regions_over.
  split; intros [[q [Hq H]] N]; split.
  - exists q. apply In_range in Hq. split; [lia | exact H].
  - intros [p [Hp Hr]]. apply N. exists p. split; [| exact Hr].
    apply In_range. lia.
  - exists q. split; [apply In_range; lia | exact H].
  - intros [p [Hp Hr]]. apply N. exists p. apply In_range in Hp.
    split; [lia | exact Hr].
Qed.

(** Every region returned by [late_adopters] is there for an emerged name
    that it does not report in [year] itself, and that it reports in one
    of the twelve years after [year]: no trend setter of a name is among
    the late adopters of that name. *)
Theorem late_adopters_origin (df : DataFrame) (year : Z) (late : list string)
  (state : string) :
  late_adopters df year = Some late -> In state late ->
  exists name,
    In name (Py.keys (becomed_popular df year))
    /\ ~ In state (states_with_name df year name)
    /\ exists q, year + 1 <= q <= year + 12 /\ reports df q name state.
Proof.
  rewrite late_adopters_eq. intros [= <-] H.
  unfold late_adopters_spec in H. apply in_flat_map in H.
  destruct H as [[name years] [Hi H]]. cbn [fst snd] in H.
  pose proof (@least_bounds df year name years Hi) as B.
  apply In_late_only in H. destruct H as [[q [Hq Hr]] N].
  exists name. split; [apply In_keys; now exists years |].
  split.
  - intros I. apply In_states_with_name in I. apply N.
    exists year. split; [lia | exact I].
  - exists q. split; [lia | exact Hr].
Qed.

Lemma late_adopters_origin_witness :
  exists name,
    In name (Py.keys (becomed_popular Sample.frame 2010))
    /\ ~ In "TX"%string (states_with_name Sample.frame 2010 name)
    /\ exists q,
         2010 + 1 <= q <= 2010 + 12 /\ reports Sample.frame q name "TX".
Proof.
  apply (@late_adopters_origin Sample.frame 2010 ["TX"; "TX"]%string).
  - vm_compute. reflexivity.
  - now left.
Defined.

Lemma sum_bounded {A} (f : A -> Z) (c : Z) (l : list A) :
  (forall x, In x l -> f x <= c) ->
  Pd.sum (map f l) <= c * Z.of_nat (List.length l).
Proof.
  induction l as [| x l IH]; intros H; cbn [map List.length]; [cbn; lia |].
  rewrite sum_cons.
  pose proof (H x (or_introl eq_refl)).
  pose proof (IH (fun y Hy => H y (or_intror Hy))). lia.
Qed.

Lemma length_range (lo hi : Z) :
  List.length (Py.range lo hi) = Z.to_nat (hi - lo).
Proof. unfold Py.range. now rewrite length_map, length_seq. Qed.

(** A region is a late adopter of one name at most three times, once for
    each year of the adoption window; so it occurs in [late_adopters] at
    most three times the number of emerged names. *)
Theorem late_adopters_at_most_thrice (df : DataFrame) (year : Z)
  (late : list string) (region : string) :
  late_adopters df year = Some late ->
  occurrences late region
  <= 3 * Z.of_nat (List.length (becomed_popular df year)).
Proof.
  rewrite late_adopters_eq. intros [= <-].
  unfold late_adopters_spec. rewrite occurrences_flat_map.
  apply sum_bounded. intros [name years] _. cbn [fst snd].
  unfold late_only. rewrite occurrences_filter.
  set (y := least years + 1).
  assert (B : occurrences (regions_over df name (Py.range y (y + 3))) region
              <= 3).
  { unfold regions_over. rewrite occurrences_flat_map.
    rewrite (map_ext _ (fun q => if Py.mem region (states_with_name df q name)
                                 then 1 else 0))
      by (intros q; apply occurrences_NoDup, NoDup_set).
    rewrite sum_indicator_filter.
    pose proof (filter_length_le
                  (fun q => Py.mem region (states_with_name df q name))
                  (Py.range y (y + 3))) as L.
    rewrite length_range in L. lia. }
  destruct (negb _); lia.
Qed.

Lemma late_adopters_at_most_thrice_witness :
  occurrences ["TX"; "TX"]%string "TX"
  <= 3 * Z.of_nat (List.length (becomed_popular Sample.frame 2010)).
Proof.
  apply (@late_adopters_at_most_thrice Sample.frame 2010).
  vm_compute. reflexivity.
Defined.

(** ** Only the years around [year] matter *)

Lemma filter_between (p : Row -> bool) (lo hi : Z) (df : DataFrame) :
  (forall r, p r = true -> lo <= r_year r <= hi) ->
  filter p (between lo hi df) = filter p df.
Proof.
  intros H. unfold between. induction df as [| r df IH]; [reflexivity |].
  cbn [filter].
  destruct ((lo <=? r_year r) && (r_year r <=? hi)) eqn:W; cbn [filter];
    rewrite IH; [reflexivity |].
  destruct (p r) eqn:P; [| reflexivity].
  apply H in P. apply andb_false_iff in W. lia.
Qed.

Lemma new_names_between (df : DataFrame) (lo hi year : Z) :
  lo <= year - 11 -> year <= hi ->
  new_names (between lo hi df) year = new_names df year.
Proof.
  intros H1 H2. unfold new_names. rewrite !filter_between; [reflexivity | |].
  - intros r E. lia.
  - intros r E. apply andb_true_iff in E. lia.
Qed.

Lemma popular_names_between (df : DataFrame) (lo hi year : Z) :
  lo <= year <= hi ->
  popular_names (between lo hi df) year = popular_names df year.
Proof.
  intros H. unfold popular_names. rewrite filter_between; [reflexivity |].
  intros r E. lia.
Qed.

Lemma states_with_name_between (df : DataFrame) (lo hi year : Z)
  (name : string) :
  lo <= year <= hi ->
  states_with_name (between lo hi df) year name
  = states_with_name df year name.
Proof.
  intros H. unfold states_with_name. rewrite filter_between; [reflexivity |].
  intros r E. apply andb_true_iff in E. lia.
Qed.

Lemma fold_left_ext_in {A B} (f g : B -> A -> B) (l : list A) (b : B) :
  (forall b x, In x l -> f b x = g b x) -> fold_left f l b = fold_left g l b.
Proof.
  revert b. induction l as [| x l IH]; intros b H; [reflexivity |].
  cbn [fold_left]. rewrite (H b x) by now left.
  apply IH. intros b' y Hy. apply H. now right.
Qed.

Lemma becomed_popular_between (df : DataFrame) (lo hi year : Z) :
  lo <= year - 11 -> year + 9 <= hi ->
  becomed_popular (between lo hi df) year = becomed_popular df year.
Proof.
  intros H1 H2. unfold becomed_popular.
  rewrite new_names_between by lia.
  apply fold_left_ext_in. intros becomed y Hy. apply In_range in Hy.
  now rewrite popular_names_between by lia.
Qed.

Lemma regions_over_between (df : DataFrame) (lo hi : Z) (name : string)
  (years : list Z) :
  (forall y, In y years -> lo <= y <= hi) ->
  regions_over (between lo hi df) name years = regions_over df name years.
Proof.
  intros H. unfold regions_over. rewrite !flat_map_concat_map. f_equal.
  apply map_ext_in. intros y Hy. apply states_with_name_between. now apply H.
Qed.

(** The records of years outside [[year-11, year+9]] have no influence on
    [becomed_popular] and [trend_setter], and those outside
    [[year-11, year+12]] none on [late_adopters]: dropping them from the
    frame changes no result. *)
Theorem window_suffices (df : DataFrame) (year : Z) :
  becomed_popular (between (year - 11) (year + 9) df) year
  = becomed_popular df year
  /\ trend_setter (between (year - 11) (year + 9) df) year
     = trend_setter df year
  /\ late_adopters (between (year - 11) (year + 12) df) year
     = late_adopters df year.
Proof.
  split; [apply becomed_popular_between; lia |].
  split.
  - rewrite !trend_setter_eq, becomed_popular_between by lia.
    apply flat_map_ext. intros name. apply states_with_name_between. lia.
  - rewrite !late_adopters_eq. f_equal. unfold late_adopters_spec.
    rewrite becomed_popular_between by lia.
    rewrite !flat_map_concat_map. f_equal.
    apply map_ext_in. intros [name years] Hi. cbn [fst snd].
    pose proof (@least_bounds df year name years Hi) as B.
    unfold late_only. rewrite !regions_over_between; [reflexivity | |];
      intros y Hy; apply In_range in Hy; lia.
Qed.

(** ** The order of the records does not matter *)

Lemma ascii_compare_refl (c : Ascii.ascii) : Ascii.compare c c = Eq.
Proof. unfold Ascii.compare. apply N.compare_refl. Qed.

Lemma leb_trans (x y z : string) :
  String.leb x y = true -> String.leb y z = true -> String.leb x z = true.
Proof.
  unfold String.leb. revert y z.
  induction x as [| a x IH]; intros [| b y] [| c z]; cbn;
    try reflexivity; try discriminate.
  destruct (Ascii.compare a b) eqn:Cab; try discriminate;
    destruct (Ascii.compare b c) eqn:Cbc; try discriminate.
  - apply Ascii.compare_eq_iff in Cab, Cbc. subst.
    rewrite ascii_compare_refl. apply IH.
  - apply Ascii.compare_eq_iff in Cab. subst. now rewrite Cbc.
  - apply Ascii.compare_eq_iff in Cbc. subst. now rewrite Cab.
  - intros _ _. unfold Ascii.compare in *.
    rewrite N.compare_lt_iff in Cab, Cbc.
    assert (T : (Ascii.N_of_ascii a ?= Ascii.N_of_ascii c)%N = Lt)
      by (apply N.compare_lt_iff; lia).
    now rewrite T.
Qed.

Lemma sorted_names_unique (l1 l2 : list string) :
  StronglySorted (fun a b => String.leb a b = true) l1 ->
  StronglySorted (fun a b => String.leb a b = true) l2 ->
  Permutation l1 l2 -> l1 = l2.
Proof.
  intros S1. revert l2. induction S1 as [| x l1 S1 IH F1]; intros l2 S2 P.
  - apply Permutation_nil in P. now subst.
  - destruct S2 as [| y l2 S2 F2].
    + apply Permutation_sym, Permutation_nil in P. discriminate.
    + assert (E : x = y).
      { rewrite Forall_forall in F1, F2.
        assert (Ix : In x (y :: l2))
          by (apply (Permutation_in _ P); now left).
        assert (Iy : In y (x :: l1))
          by (apply (Permutation_in _ (Permutation_sym P)); now left).
        destruct Ix as [-> | Ix]; [reflexivity |].
        destruct Iy as [-> | Iy]; [reflexivity |].
        apply String.leb_antisym; [now apply F1 | now apply F2]. }
      subst y. f_equal. apply IH; [assumption |].
      now apply Permutation_cons_inv in P.
Qed.

Lemma sorted_names_perm (l1 l2 : list string) :
  Permutation l1 l2 -> Pd.sort String.leb l1 = Pd.sort String.leb l2.
Proof.
  intros P. apply sorted_names_unique.
  - apply sort_sorted; [apply String.leb_total | apply leb_trans].
  - apply sort_sorted; [apply String.leb_total | apply leb_trans].
  - rewrite !sort_perm. exact P.
Qed.

Lemma filter_perm {A} (p : A -> bool) (l1 l2 : list A) :
  Permutation l1 l2 -> Permutation (filter p l1) (filter p l2).
Proof.
  induction 1 as [| x l1 l2 P IH | x y l | l1 l2 l3 P1 IH1 P2 IH2]; cbn.
  - constructor.
  - destruct (p x); [now constructor | assumption].
  - destruct (p x), (p y); try reflexivity. apply perm_swap.
  - now transitivity (filter p l2).
Qed.

Lemma sum_perm (l1 l2 : list Z) : Permutation l1 l2 -> Pd.sum l1 = Pd.sum l2.
Proof.
  induction 1 as [| x l1 l2 P IH | x y l | l1 l2 l3 P1 IH1 P2 IH2].
  - reflexivity.
  - now rewrite !sum_cons, IH.
  - rewrite !sum_cons. lia.
  - congruence.
Qed.

Section Reordered.
Variables df df' : DataFrame.
Hypothesis reordered : Permutation df df'.

Lemma present_perm (year : Z) (name : string) :
  present df year name <-> present df' year name.
Proof.
  unfold present. split; intros [r [Hr H]]; exists r; (split; [| exact H]).
  - now apply (Permutation_in _ reordered).
  - now apply (Permutation_in _ (Permutation_sym reordered)).
Qed.

Lemma reports_perm (year : Z) (name state : string) :
  reports df year name state <-> reports df' year name state.
Proof.
  unfold reports. split; intros [r [Hr H]]; exists r; (split; [| exact H]).
  - now apply (Permutation_in _ reordered).
  - now apply (Permutation_in _ (Permutation_sym reordered)).
Qed.

Lemma name_count_perm (year : Z) (name : string) :
  name_count df year name = name_count df' year name.
Proof.
  unfold name_count, Pd.sum64. f_equal.
  apply sum_perm, Permutation_map, filter_perm, reordered.
Qed.

Lemma year_total_perm (year : Z) : year_total df year = year_total df' year.
Proof.
  unfold year_total, Pd.sum64. f_equal.
  apply sum_perm, Permutation_map, filter_perm, reordered.
Qed.

Lemma distinct_names_perm (year : Z) :
  Permutation (distinct_names df year) (distinct_names df' year).
Proof.
  apply NoDup_Permutation; [apply NoDup_set | apply NoDup_set |].
  intros name. rewrite <- !present_distinct. apply present_perm.
Qed.

Lemma shares_perm (year : Z) : shares df year = shares df' year.
Proof.
  unfold shares. rewrite (sorted_names_perm (distinct_names_perm year)).
  apply map_ext. intros name. unfold share.
  now rewrite name_count_perm, year_total_perm.
Qed.

Lemma popular_names_perm (year : Z) :
  popular_names df year = popular_names df' year.
Proof.
  rewrite !popular_names_eq, shares_perm. unfold distinct_name_count.
  now rewrite (Permutation_length (distinct_names_perm year)).
Qed.

Lemma new_names_perm (year : Z) (name : string) :
  In name (new_names df year) <-> In name (new_names df' year).
Proof.
  rewrite !In_new_names, present_perm. unfold present_within.
  split; intros [H N]; (split; [exact H |]); intros [y [Hy P]]; apply N;
    exists y; (split; [exact Hy |]); now apply present_perm.
Qed.

End Reordered.

(** Reordering the records of the frame changes neither the list returned
    by [popular_names], nor the members of [new_names] and
    [states_with_name], nor the years that [becomed_popular] files under a
    name. *)
Theorem record_order_irrelevant (df df' : DataFrame) (year : Z) :
  Permutation df df' ->
  popular_names df year = popular_names df' year
  /\ (forall name,
        In name (new_names df year) <-> In name (new_names df' year))
  /\ (forall name state,
        In state (states_with_name df year name)
        <-> In state (states_with_name df' year name))
  /\ (forall name,
        Py.get (becomed_popular df year) name
        = Py.get (becomed_popular df' year) name).
Proof.
  intros P.
  split; [now apply popular_names_perm |].
  split; [intros name; now apply new_names_perm |].
  split.
  - intros name state. rewrite !In_states_with_name. now apply reports_perm.
  - intros name. rewrite !get_becomed_popular.
    assert (E : Py.mem name (new_names df year)
                = Py.mem name (new_names df' year)).
    { apply eq_true_iff_eq. rewrite !mem_In. now apply new_names_perm. }
    rewrite E. unfold popular_years.
    rewrite (filter_ext _ (fun y => Py.mem name (popular_names df' y)));
      [reflexivity |].
    intros y. now rewrite (popular_names_perm P).
Qed.

Lemma record_order_irrelevant_witness :
  popular_names Sample.frame 2010 = popular_names (rev Sample.frame) 2010
  /\ (forall name,
        Py.get (becomed_popular Sample.frame 2010) name
        = Py.get (becomed_popular (rev Sample.frame) 2010) name).
Proof.
  destruct (@record_order_irrelevant Sample.frame (rev Sample.frame) 2010
              (Permutation_rev Sample.frame)) as [H1 [_ [_ H2]]].
  split; [exact H1 | exact H2].
Defined.

(** ** A year whose counts are all zero *)

Lemma sum_zero (l : list Z) : (forall x, In x l -> x = 0) -> Pd.sum l = 0.
Proof.
  induction l as [| x l IH]; intros H; [reflexivity |].
  rewrite sum_cons, (H x) by now left.
  rewrite IH; [reflexivity |]. intros y Hy. apply H. now right.
Qed.

Lemma sort_unordered {A} (before : A -> A -> bool) (l : list A) :
  (forall x y, In x l -> In y l -> before x y = true) ->
  Pd.sort before l = l.
Proof.
  induction l as [| x l IH]; intros H; [reflexivity |].
  cbn [Pd.sort fold_right]. fold (Pd.sort before l).
  rewrite IH by (intros a b Ha Hb; apply H; now right).
  destruct l as [| y l]; [reflexivity |].
  cbn [Pd.insert]. rewrite H; [reflexivity | now left | right; now left].
Qed.

(** When every record of [year] has a count of zero, no share is defined
    and the ranking keeps the order of the grouped frame: the result is
    the first [ceil (n / 10)] names of the year in lexicographic order. *)
Theorem popular_names_all_zero (df : DataFrame) (year : Z) :
  (forall r, In r df -> r_year r = year -> r_count r = 0) ->
  popular_names df year
  = firstn (Pd.ceil_tenth (distinct_name_count df year))
           (Pd.sort String.leb (distinct_names df year)).
Proof.
  intros H.
  assert (N : forall name, share df year name = NaN).
  { intros name. unfold share.
    assert (E1 : name_count df year name = 0).
    { unfold name_count, Pd.sum64. rewrite sum_zero; [reflexivity |].
      intros x Hx.
      apply in_map_iff in Hx. destruct Hx as [r [<- Hr]].
      apply filter_In in Hr. destruct Hr as [Hr C].
      apply andb_true_iff in C. apply H; [assumption | lia]. }
    assert (E2 : year_total df year = 0).
    { unfold year_total, Pd.sum64. rewrite sum_zero; [reflexivity |].
      intros x Hx.
      apply in_map_iff in Hx. destruct Hx as [r [<- Hr]].
      apply filter_In in Hr. destruct Hr as [Hr C].
      apply H; [assumption | lia]. }
    now rewrite E1, E2. }
  rewrite popular_names_eq. unfold Pd.sort_values.
  rewrite sort_unordered.
  - unfold Pd.index. rewrite <- firstn_map. f_equal.
    apply index_shares.
  - intros x y Hx Hy. apply In_shares in Hx, Hy.
    destruct Hx as [-> _], Hy as [-> _]. now rewrite !N.
Qed.

Lemma popular_names_all_zero_witness :
  popular_names Sample.zeros 2000
  = firstn (Pd.ceil_tenth (distinct_name_count Sample.zeros 2000))
           (Pd.sort String.leb (distinct_names Sample.zeros 2000)).
Proof.
  apply popular_names_all_zero. intros r Hr _.
  unfold Sample.zeros in Hr.
  repeat (destruct Hr as [<- | Hr]; [reflexivity |]). contradiction.
Defined.

(** ** A year without records *)

Lemma fold_left_fixed {A B} (f : B -> A -> B) (l : list A) (b : B) :
  (forall x, f b x = b) -> fold_left f l b = b.
Proof.
  intros H. induction l as [| x l IH]; [reflexivity |].
  cbn [fold_left]. now rewrite H.
Qed.

(** For a year of which the frame has no record, every yearly operation
    returns its empty result: no new name, no popular name, no region, no
    emergence, no trend setter and no late adopter. *)
Theorem year_without_records (df : DataFrame) (year : Z) :
  (forall r, In r df -> r_year r <> year) ->
  new_names df year = []
  /\ popular_names df year = []
  /\ (forall name, states_with_name df year name = [])
  /\ becomed_popular df year = []
  /\ trend_setter df year = []
  /\ late_adopters df year = Some [].
Proof.
  intros H.
  assert (P : forall name, ~ present df year name).
  { intros name [r [Hr [Hy _]]]. exact (H r Hr Hy). }
  assert (E1 : new_names df year = []).
  { apply nil_of_no_member. intros name Hn.
    apply In_new_names in Hn. now apply (P name). }
  assert (E2 : becomed_popular df year = []).
  { unfold becomed_popular. rewrite E1. now apply fold_left_fixed. }
  split; [exact E1 |].
  split.
  { apply nil_of_no_member. intros name Hn.
    apply In_popular_names_present in Hn. now apply (P name). }
  split.
  { intros name. apply nil_of_no_member. intros state Hs.
    apply In_states_with_name in Hs. destruct Hs as [r [Hr [Hy _]]].
    exact (H r Hr Hy). }
  split; [exact E2 |].
  split.
  - unfold trend_setter. now rewrite E2.
  - unfold late_adopters. now rewrite E2.
Qed.

Lemma year_without_records_witness :
  new_names Sample.frame 1990 = []
  /\ popular_names Sample.frame 1990 = []
  /\ (forall name, states_with_name Sample.frame 1990 name = [])
  /\ becomed_popular Sample.frame 1990 = []
  /\ trend_setter Sample.frame 1990 = []
  /\ late_adopters Sample.frame 1990 = Some [].
Proof.
  apply year_without_records. intros r Hr.
  unfold Sample.frame in Hr.
  repeat (destruct Hr as [<- | Hr]; [discriminate |]). contradiction.
Defined.

(** ** A frame without the expected columns *)

Lemma select_raises (mask : Row -> bool) (l : loc) (o : object) (s : store) :
  nth_error s l = Some o -> (forall rows, o <> ODataFrame rows) ->
  Obj.select mask l s = Raise KeyError.
Proof.
  intros H N. unfold Obj.select, Obj.load, bind. rewrite H.
  destruct o; try reflexivity. now destruct (N rows).
Qed.

Lemma bind_raises {A B} (m : M A) (k : A -> M B) (s : store) (e : exn) :
  m s = Raise e -> bind m k s = Raise e.
Proof. unfold bind. now intros ->. Qed.

(** Handed an object that is not a frame with the five registration
    columns, every operation raises [KeyError] at its first selection by
    [year]; the period functions do so when the period has a year, and
    return the empty map, the store untouched, when it has none. *)
Theorem missing_column_raises (s : store) (l : loc) (o : object) :
  nth_error s l = Some o -> (forall rows, o <> ODataFrame rows) ->
  (forall year, Obj.new_names l year s = Raise KeyError)
  /\ (forall year name, Obj.states_with_name l year name s = Raise KeyError)
  /\ (forall year, Obj.popular_names l year s = Raise KeyError)
  /\ (forall year, Obj.becomed_popular l year s = Raise KeyError)
  /\ (forall year, Obj.trend_setter l year s = Raise KeyError)
  /\ (forall year, Obj.late_adopters l year s = Raise KeyError)
  /\ (forall start end_,
        start <= end_ ->
        Obj.trend_setter_period l start end_ s = Raise KeyError
        /\ Obj.late_adopters_period l start end_ s = Raise KeyError)
  /\ (forall start end_,
        end_ < start ->
        Obj.trend_setter_period l start end_ s = Return [] s
        /\ Obj.late_adopters_period l start end_ s = Return [] s).
Proof.
  intros H N.
  assert (R1 : forall year, Obj.new_names l year s = Raise KeyError).
  { intros year. unfold Obj.new_names.
    apply bind_raises. now apply select_raises with (o := o). }
  assert (R2 : forall year, Obj.becomed_popular l year s = Raise KeyError).
  { intros year. unfold Obj.becomed_popular. now apply bind_raises. }
  assert (R3 : forall year, Obj.trend_setter l year s = Raise KeyError).
  { intros year. unfold Obj.trend_setter. now apply bind_raises. }
  assert (R4 : forall year, Obj.late_adopters l year s = Raise KeyError).
  { intros year. unfold Obj.late_adopters. now apply bind_raises. }
  split; [exact R1 |].
  split.
  { intros year name. unfold Obj.states_with_name.
    apply bind_raises. now apply select_raises with (o := o). }
  split.
  { intros year. unfold Obj.popular_names.
    apply bind_raises. now apply select_raises with (o := o). }
  split; [exact R2 |].
  split; [exact R3 |].
  split; [exact R4 |].
  split.
  - intros start end_ Hr.
    unfold Obj.trend_setter_period, Obj.late_adopters_period.
    rewrite range_cons by lia. cbn [foldM].
    split; apply bind_raises, bind_raises; [apply R3 | apply R4].
  - intros start end_ Hr.
    unfold Obj.trend_setter_period, Obj.late_adopters_period.
    rewrite range_empty by lia. split; reflexivity.
Qed.

Lemma missing_column_raises_witness :
  (forall year, Obj.popular_names 0%nat year [OCounts []] = Raise KeyError)
  /\ Obj.trend_setter_period 0%nat 2012 2010 [OCounts []]
     = Return [] [OCounts []].
Proof.
  destruct (@missing_column_raises [OCounts []] 0%nat (OCounts []) eq_refl)
    as [_ [_ [H [_ [_ [_ [_ E]]]]]]]; [discriminate |].
  split; [exact H |].
  apply (E 2012 2010). lia.
Defined.

(** ** Programs and functions *)

(** Run from any store that holds the caller's frame, each operation
    returns the value that the corresponding function gives for the rows
    of the frame, and only adds objects to the store. *)
Theorem programs_compute (df : loc) (rows : DataFrame) :
  (forall year,
     returns df rows (Obj.new_names df year) (new_names rows year))
  /\ (forall year name,
        returns df rows (Obj.states_with_name df year name)
                (states_with_name rows year name))
  /\ (forall year,
        returns df rows (Obj.popular_names df year) (popular_names rows year))
  /\ (forall year,
        returns df rows (Obj.becomed_popular df year)
                (becomed_popular rows year))
  /\ (forall year,
        returns df rows (Obj.trend_setter df year) (trend_setter rows year))
  /\ (forall start end_,
        returns df rows (Obj.trend_setter_period df start end_)
                (trend_setter_period rows start end_))
  /\ (forall year late,
        late_adopters rows year = Some late ->
        returns df rows (Obj.late_adopters df year) late)
  /\ (forall start end_ states,
        late_adopters_period rows start end_ = Some states ->
        returns df rows (Obj.late_adopters_period df start end_) states).
Proof.
  split; [intros; apply returns_new_names |].
  split; [intros; apply returns_states_with_name |].
  split; [intros; apply returns_popular_names |].
  split; [intros; apply returns_becomed_popular |].
  split; [intros; apply returns_trend_setter |].
  split; [intros; apply returns_trend_setter_period |].
  split.
  - intros year late E. rewrite late_adopters_eq in E. injection E as <-.
    apply returns_late_adopters.
  - intros start end_ states E. now apply returns_late_adopters_period.
Qed.

Lemma programs_compute_witness :
  exists fresh,
    Obj.late_adopters 0%nat 2010 [ODataFrame Sample.frame]
    = Return ["TX"; "TX"]%string ([ODataFrame Sample.frame] ++ fresh).
Proof.
  destruct (programs_compute 0%nat Sample.frame) as [_ [_ [_ [_ [_ [_ [H _]]]]]]].
  apply (H 2010 ["TX"; "TX"]%string); [vm_compute |]; reflexivity.
Defined.
